(** * Announcements endpoints of the High School Management System API

    A shallow embedding of [src/backend/routers/announcements.py]: the five
    request handlers of the announcements router, over an explicit model of
    the two MongoDB collections they use and of bson's [ObjectId].

    Handlers are computations in a small state-and-exception monad: a Python
    [raise] leaves the database as it is at that point, so a failing handler
    returns the exception together with the database it leaves behind.

    A Python [str] is a [string], the sequence of its UTF-8 bytes, ordered
    by [String.leb]: byte-wise lexicographic order, which is the order of
    Python's [<=] on [str] and of the store's comparison of string values.
    The two readings of the environment, [datetime.now().isoformat()] and the
    value a new [ObjectId()] is made of, are parameters of the handlers. *)

From Stdlib Require Import List String Ascii PeanoNat NArith Bool Lia.
From Stdlib.Strings Require Byte.
Import ListNotations.

Local Open Scope string_scope.
Local Open Scope N_scope.
Local Open Scope list_scope.

(** ** bson: [ObjectId] and the hexadecimal codecs it relies on *)

Module Bson.

Definition bytes := list Byte.byte.

Definition byte_of_N (n : N) : Byte.byte := byte_of_ascii (ascii_of_N (n mod 256)).

(** CPython's [Py_ISSPACE] on an ASCII character: space, and \t \n \v \f \r. *)
Definition Py_ISSPACE (c : ascii) : bool :=
  let n := N_of_ascii c in
  (n =? 32) || ((9 <=? n) && (n <=? 13)).

(** Value of a hexadecimal digit, either case. *)
Definition digit_value (c : ascii) : option N :=
  let n := N_of_ascii c in
  if (48 <=? n) && (n <=? 57) then Some (n - 48)
  else if (97 <=? n) && (n <=? 102) then Some (n - 87)
  else if (65 <=? n) && (n <=? 70) then Some (n - 55)
  else None.

(** [bytes.fromhex]: two hexadecimal digits per byte; ASCII whitespace is
    skipped between bytes (not inside one); anything else is a
    [ValueError], here [None]. *)
Fixpoint fromhex (s : string) : option bytes :=
  match s with
  | EmptyString => Some []
  | String c s' =>
      if Py_ISSPACE c then fromhex s'
      else
        match digit_value c, s' with
        | Some top, String c' s'' =>
            match digit_value c' with
            | Some bot =>
                match fromhex s'' with
                | Some b => Some (byte_of_N (16 * top + bot) :: b)
                | None => None
                end
            | None => None
            end
        | _, _ => None
        end
  end.

Definition hex_digit (n : N) : ascii :=
  ascii_of_N (if n <? 10 then 48 + n else 87 + n).

(** [binascii.hexlify(b).decode()]: two lower-case digits per byte. *)
Fixpoint hexlify (b : bytes) : string :=
  match b with
  | [] => EmptyString
  | x :: b' =>
      String (hex_digit (Byte.to_N x / 16))
        (String (hex_digit (Byte.to_N x mod 16)) (hexlify b'))
  end.

(** An [ObjectId] is its binary value, the [__id] attribute. *)
Definition ObjectId := bytes.

Definition ObjectId_eq_dec : forall a b : ObjectId, {a = b} + {a <> b} :=
  list_eq_dec Byte.byte_eq_dec.

Definition ObjectId_eqb (a b : ObjectId) : bool :=
  if ObjectId_eq_dec a b then true else false.

(** [ObjectId(oid)] on a [str]: the string must have 24 characters and go
    through [bytes.fromhex]; otherwise [InvalidId] is raised ([None]). *)
Definition ObjectId_of_str (oid : string) : option ObjectId :=
  if Nat.eqb (String.length oid) 24 then fromhex oid else None.

(** [str(oid)]. *)
Definition str (oid : ObjectId) : string := hexlify oid.

(** Big-endian packing of the low [k] bytes of [n]. *)
Fixpoint pack_be (k : nat) (n : N) : bytes :=
  match k with
  | O => []
  | S k' => byte_of_N (n / 256 ^ N.of_nat k') :: pack_be k' n
  end.

(** [ObjectId()]: a fresh 12-byte value, the concatenation of a 4-byte
    timestamp, a 5-byte random value and a 3-byte counter.  The 96-bit
    value the generator draws is the argument. *)
Definition ObjectId_new (entropy : N) : ObjectId := pack_be 12 entropy.

End Bson.
Import Bson.

(** ** Documents and request bodies *)

(** An announcement document.  [Id] is [ObjectId] in the collection and
    [string] once the handler has replaced [_id] by [str(_id)].  A value that
    may be [None] (or missing) in the document is an [option]. *)
Record Announcement (Id : Type) : Type := mkAnnouncement {
  _id : Id;
  message : option string;
  start_date : option string;
  end_date : option string;
  created_by : string;
  created_at : string
}.
Arguments mkAnnouncement {Id}.
Arguments _id {Id}.
Arguments message {Id}.
Arguments start_date {Id}.
Arguments end_date {Id}.
Arguments created_by {Id}.
Arguments created_at {Id}.

Definition Document := Announcement ObjectId.
Definition Dict := Announcement string.

(** class AnnouncementCreate(BaseModel) *)
Record AnnouncementCreate : Type := mkCreate {
  c_message : string;
  c_start_date : option string;
  c_end_date : string;
  c_created_by : string
}.

(** class AnnouncementUpdate(BaseModel) *)
Record AnnouncementUpdate : Type := mkUpdate {
  u_message : option string;
  u_start_date : option string;
  u_end_date : option string
}.

(** ** The database *)

(** The two collections of [..database].  Announcements are kept in
    insertion order; a teacher document is represented by its [_id], the only
    part of it the router reads. *)
Record Database : Type := mkDatabase {
  announcements_collection : list Document;
  teachers_collection : list string
}.

(** ** Exceptions and the handler monad *)

Inductive exception : Type :=
| HTTPException (status_code : N) (detail : string)
| InvalidId (oid : string)
| DuplicateKeyError (oid : ObjectId)
| TypeError.

Inductive result (A : Type) : Type :=
| Return (a : A)
| Raise (e : exception).
Arguments Return {A}.
Arguments Raise {A}.

Definition M (A : Type) : Type := Database -> result A * Database.

Definition ret {A} (a : A) : M A := fun db => (Return a, db).
Definition raise {A} (e : exception) : M A := fun db => (Raise e, db).
Definition bind {A B} (m : M A) (k : A -> M B) : M B :=
  fun db =>
    match m db with
    | (Return a, db') => k a db'
    | (Raise e, db') => (Raise e, db')
    end.

Notation "x <- m ;; k" := (bind m (fun x => k))
  (at level 61, m at next level, right associativity).
Notation "m ;;; k" := (bind m (fun _ => k))
  (at level 61, right associativity).

Definition Unauthorized : exception := HTTPException 401 "Unauthorized".
Definition BadRequest : exception := HTTPException 400 "No fields to update".
Definition NotFound : exception := HTTPException 404 "Announcement not found".

(** ** The store: pymongo's collection operations *)

Definition with_id {I J : Type} (i : J) (a : Announcement I) : Announcement J :=
  mkAnnouncement i (message a) (start_date a) (end_date a)
    (created_by a) (created_at a).

(** [announcement["_id"] = str(announcement["_id"])] *)
Definition stringify_id (d : Document) : Dict := with_id (str (_id d)) d.

Definition has_id (oid : ObjectId) (d : Document) : bool := ObjectId_eqb (_id d) oid.

(** [teachers_collection.find_one({"_id": username})] *)
Definition teachers_find_one (username : string) : M (option string) :=
  fun db => (Return (find (String.eqb username) (teachers_collection db)), db).

(** [announcements_collection.find(query)], listed. *)
Definition announcements_find (query : Document -> bool) : M (list Document) :=
  fun db => (Return (filter query (announcements_collection db)), db).

(** [announcements_collection.find_one({"_id": oid})] *)
Definition announcements_find_one (oid : ObjectId) : M (option Document) :=
  fun db => (Return (find (has_id oid) (announcements_collection db)), db).

(** [announcements_collection.insert_one(doc)] for a document without [_id]:
    the driver gives it [ObjectId()], the server appends it unless the
    identifier is already taken ([_id] carries a unique index).  Returns
    [inserted_id]. *)
Definition insert_one (entropy : N) (doc : Announcement unit) : M ObjectId :=
  fun db =>
    let oid := ObjectId_new entropy in
    if existsb (has_id oid) (announcements_collection db)
    then (Raise (DuplicateKeyError oid), db)
    else (Return oid,
          mkDatabase (announcements_collection db ++ [with_id oid doc])
            (teachers_collection db)).

(** The keys an update document of this router can carry. *)
Inductive field : Type := f_message | f_start_date | f_end_date.

Definition update_document := list (field * string).

(** [update_doc[key] = value] for a key not yet in the dict. *)
Definition setitem (update_doc : update_document) (key : field) (value : string)
  : update_document := update_doc ++ [(key, value)].

Definition set_field (d : Document) (kv : field * string) : Document :=
  match fst kv with
  | f_message =>
      mkAnnouncement (_id d) (Some (snd kv)) (start_date d) (end_date d)
        (created_by d) (created_at d)
  | f_start_date =>
      mkAnnouncement (_id d) (message d) (Some (snd kv)) (end_date d)
        (created_by d) (created_at d)
  | f_end_date =>
      mkAnnouncement (_id d) (message d) (start_date d) (Some (snd kv))
        (created_by d) (created_at d)
  end.

(** The [$set] operator. *)
Definition apply_set (update_doc : update_document) (d : Document) : Document :=
  fold_left set_field update_doc d.

(** The first document with the given [_id] is rewritten in place; the
    count of matched documents comes with the new collection. *)
Fixpoint update_first (oid : ObjectId) (update_doc : update_document)
    (docs : list Document) : N * list Document :=
  match docs with
  | [] => (0, [])
  | d :: rest =>
      if has_id oid d then (1, apply_set update_doc d :: rest)
      else let (n, rest') := update_first oid update_doc rest in (n, d :: rest')
  end.

(** [announcements_collection.update_one({"_id": oid}, {"$set": update_doc})];
    returns [matched_count]. *)
Definition update_one (oid : ObjectId) (update_doc : update_document) : M N :=
  fun db =>
    let (n, docs) := update_first oid update_doc (announcements_collection db) in
    (Return n, mkDatabase docs (teachers_collection db)).

Fixpoint delete_first (oid : ObjectId) (docs : list Document) : N * list Document :=
  match docs with
  | [] => (0, [])
  | d :: rest =>
      if has_id oid d then (1, rest)
      else let (n, rest') := delete_first oid rest in (n, d :: rest')
  end.

(** [announcements_collection.delete_one({"_id": oid})]; returns
    [deleted_count]. *)
Definition delete_one (oid : ObjectId) : M N :=
  fun db =>
    let (n, docs) := delete_first oid (announcements_collection db) in
    (Return n, mkDatabase docs (teachers_collection db)).

(** [ObjectId(announcement_id)], raising [InvalidId]. *)
Definition ObjectId_ (announcement_id : string) : M ObjectId :=
  match ObjectId_of_str announcement_id with
  | Some oid => ret oid
  | None => raise (InvalidId announcement_id)
  end.

(** ** Python and query-language comparisons *)

(** Truth value of [announcement.get("start_date")]: [None] and the empty
    string are false. *)
Definition truthy (v : option string) : bool :=
  match v with
  | Some (String _ _) => true
  | _ => false
  end.

(** The query [{"$gte": now}] on a field: only a string value compares. *)
Definition q_gte (v : option string) (now : string) : bool :=
  match v with
  | Some s => String.leb now s
  | None => false
  end.

(** [value <= now] in Python, reached for a string value only. *)
Definition py_le (v : option string) (now : string) : bool :=
  match v with
  | Some s => String.leb s now
  | None => false
  end.

(** ** The handlers *)

(** The guard every authenticated handler starts with. *)
Definition verify_teacher (username : string) : M unit :=
  teacher <- teachers_find_one username ;;
  match teacher with
  | None => raise Unauthorized
  | Some _ => ret tt
  end.

(** [GET /announcements/active]; [now] is [datetime.now().isoformat()]. *)
Definition get_active_announcements (now : string) : M (list Dict) :=
  announcements <- announcements_find (fun d => q_gte (end_date d) now) ;;
  let active_announcements :=
    fold_left
      (fun active announcement =>
         if truthy (start_date announcement) then
           if py_le (start_date announcement) now
           then active ++ [announcement]
           else active
         else active ++ [announcement])
      announcements [] in
  ret (map stringify_id active_announcements).

(** [GET /announcements] *)
Definition get_all_announcements (username : string) : M (list Dict) :=
  verify_teacher username ;;;
  announcements <- announcements_find (fun _ => true) ;;
  ret (map stringify_id announcements).

(** [POST /announcements]; [now] is [datetime.now().isoformat()] and
    [entropy] what [ObjectId()] draws inside [insert_one]. *)
Definition create_announcement (now : string) (entropy : N)
    (announcement : AnnouncementCreate) : M Dict :=
  verify_teacher (c_created_by announcement) ;;;
  let announcement_doc :=
    mkAnnouncement tt
      (Some (c_message announcement))
      (c_start_date announcement)
      (Some (c_end_date announcement))
      (c_created_by announcement)
      now in
  inserted_id <- insert_one entropy announcement_doc ;;
  ret (with_id (str inserted_id) announcement_doc).

Definition build_update_doc (announcement : AnnouncementUpdate) : update_document :=
  let update_doc := [] in
  let update_doc :=
    match u_message announcement with
    | Some v => setitem update_doc f_message v
    | None => update_doc
    end in
  let update_doc :=
    match u_start_date announcement with
    | Some v => setitem update_doc f_start_date v
    | None => update_doc
    end in
  let update_doc :=
    match u_end_date announcement with
    | Some v => setitem update_doc f_end_date v
    | None => update_doc
    end in
  update_doc.

(** [PUT /announcements/{announcement_id}] *)
Definition update_announcement (announcement_id : string)
    (announcement : AnnouncementUpdate) (username : string) : M Dict :=
  verify_teacher username ;;;
  let update_doc := build_update_doc announcement in
  match update_doc with
  | [] => raise BadRequest
  | _ :: _ =>
      oid <- ObjectId_ announcement_id ;;
      matched_count <- update_one oid update_doc ;;
      if matched_count =? 0 then raise NotFound
      else
        oid' <- ObjectId_ announcement_id ;;
        updated_announcement <- announcements_find_one oid' ;;
        match updated_announcement with
        | None => raise TypeError
        | Some d => ret (stringify_id d)
        end
  end.

(** [DELETE /announcements/{announcement_id}] *)
Definition delete_announcement (announcement_id : string) (username : string)
  : M (list (string * string)) :=
  verify_teacher username ;;;
  oid <- ObjectId_ announcement_id ;;
  deleted_count <- delete_one oid ;;
  if deleted_count =? 0 then raise NotFound
  else ret [("message", "Announcement deleted successfully")].


(** ** Specification-side predicates and sample data *)

(** What the loop of [get_active_announcements] keeps. *)
Definition start_ok (now : string) (d : Document) : bool :=
  if truthy (start_date d) then py_le (start_date d) now else true.

Definition sample_teachers : list string := ["mrodriguez"; "mchen"].

Definition sample_doc (n : N) (start : option string) (stop : string) : Document :=
  mkAnnouncement (ObjectId_new n) (Some "Science fair") start (Some stop)
    "mrodriguez" "2026-01-05T08:00:00".

Definition sample_db : Database :=
  mkDatabase
    [ sample_doc 1 None "2026-06-30T00:00:00";
      sample_doc 2 (Some "2026-09-01T00:00:00") "2026-12-31T00:00:00";
      sample_doc 3 (Some "2026-01-01T00:00:00") "2026-02-01T00:00:00" ]
    sample_teachers.


(** A patch field that is provided replaces the stored value; one that is not
    leaves it. *)
Definition or_else (new old : option string) : option string :=
  match new with
  | Some v => Some v
  | None => old
  end.

(** The document as a partial update is meant to leave it. *)
Definition patched (p : AnnouncementUpdate) (d : Document) : Document :=
  mkAnnouncement (_id d)
    (or_else (u_message p) (message d))
    (or_else (u_start_date p) (start_date d))
    (or_else (u_end_date p) (end_date d))
    (created_by d) (created_at d).

(** The patch provides none of message, start_date, end_date. *)
Definition empty_patch (p : AnnouncementUpdate) : Prop :=
  u_message p = None /\ u_start_date p = None /\ u_end_date p = None.

(** [d] is the document an [_id] query for [oid] selects in [docs]: the first
    one carrying that identifier. *)
Definition selects (oid : ObjectId) (docs : list Document)
    (before : list Document) (d : Document) (after : list Document) : Prop :=
  docs = before ++ d :: after /\ _id d = oid /\
  forall x, In x before -> _id x <> oid.

(** No document of [docs] carries the identifier. *)
Definition absent (oid : ObjectId) (docs : list Document) : Prop :=
  forall x, In x docs -> _id x <> oid.

Definition deleted_ack : list (string * string) :=
  [("message", "Announcement deleted successfully")].

(** The outcomes of [update_announcement] on a database, in the order the
    handler decides them: the answer and the database left behind. *)
Inductive update_outcome (id : string) (p : AnnouncementUpdate)
    (username : string) (db : Database) : result Dict * Database -> Prop :=
| update_401 :
    ~ In username (teachers_collection db) ->
    update_outcome id p username db (Raise Unauthorized, db)
| update_400 :
    In username (teachers_collection db) ->
    empty_patch p ->
    update_outcome id p username db (Raise BadRequest, db)
| update_invalid :
    In username (teachers_collection db) ->
    ~ empty_patch p ->
    ObjectId_of_str id = None ->
    update_outcome id p username db (Raise (InvalidId id), db)
| update_404 (oid : ObjectId) :
    In username (teachers_collection db) ->
    ~ empty_patch p ->
    ObjectId_of_str id = Some oid ->
    absent oid (announcements_collection db) ->
    update_outcome id p username db (Raise NotFound, db)
| update_200 (oid : ObjectId) (before after : list Document) (d : Document) :
    In username (teachers_collection db) ->
    ~ empty_patch p ->
    ObjectId_of_str id = Some oid ->
    selects oid (announcements_collection db) before d after ->
    update_outcome id p username db
      (Return (stringify_id (patched p d)),
       mkDatabase (before ++ patched p d :: after) (teachers_collection db)).

(** The outcomes of [delete_announcement]. *)
Inductive delete_outcome (id : string) (username : string) (db : Database)
  : result (list (string * string)) * Database -> Prop :=
| delete_401 :
    ~ In username (teachers_collection db) ->
    delete_outcome id username db (Raise Unauthorized, db)
| delete_invalid :
    In username (teachers_collection db) ->
    ObjectId_of_str id = None ->
    delete_outcome id username db (Raise (InvalidId id), db)
| delete_404 (oid : ObjectId) :
    In username (teachers_collection db) ->
    ObjectId_of_str id = Some oid ->
    absent oid (announcements_collection db) ->
    delete_outcome id username db (Raise NotFound, db)
| delete_200 (oid : ObjectId) (before after : list Document) (d : Document) :
    In username (teachers_collection db) ->
    ObjectId_of_str id = Some oid ->
    selects oid (announcements_collection db) before d after ->
    delete_outcome id username db
      (Return deleted_ack,
       mkDatabase (before ++ after) (teachers_collection db)).

(** A series of update requests [(announcement_id, patch, username)], served
    one after the other whatever each one answers. *)
Fixpoint run_updates
    (requests : list (string * AnnouncementUpdate * string)) (db : Database)
  : Database :=
  match requests with
  | [] => db
  | (id, p, username) :: rest =>
      run_updates rest (snd (update_announcement id p username db))
  end.


(** Identifiers are unique in the collection ([_id] carries a unique index). *)
Definition unique_ids (db : Database) : Prop :=
  NoDup (map _id (announcements_collection db)).

Definition sample_patch : AnnouncementUpdate :=
  mkUpdate (Some "Science fair moved to the gym") None None.

(** The three errors the router raises itself. *)
Definition router_error (e : exception) : Prop :=
  e = Unauthorized \/ e = BadRequest \/ e = NotFound.

Definition sample_create : AnnouncementCreate :=
  mkCreate "Parent-teacher conferences" (Some "2026-03-10T00:00:00")
    "2026-03-20T00:00:00" "mchen".

Definition sample_requests : list (string * AnnouncementUpdate * string) :=
  [ ("000000000000000000000001", mkUpdate None (Some "2026-02-01T00:00:00") None, "mchen");
    ("000000000000000000000001", mkUpdate None None None, "mchen");
    ("not-an-object-id", sample_patch, "mchen");
    ("000000000000000000000001", sample_patch, "nobody");
    ("000000000000000000000001", mkUpdate (Some "") (Some "") (Some ""), "mrodriguez") ].

(** ** Further specification-side definitions *)

(** [l1] is [l2] with some elements left out, the others in their order. *)
Inductive sublist {A : Type} : list A -> list A -> Prop :=
| sublist_nil : sublist [] []
| sublist_skip (x : A) (l1 l2 : list A) : sublist l1 l2 -> sublist l1 (x :: l2)
| sublist_keep (x : A) (l1 l2 : list A) : sublist l1 l2 -> sublist (x :: l1) (x :: l2).

(** Two patches sent one after the other: per field, the later value if the
    later patch provides one, else the earlier. *)
Definition merge_patch (p1 p2 : AnnouncementUpdate) : AnnouncementUpdate :=
  mkUpdate (or_else (u_message p2) (u_message p1))
    (or_else (u_start_date p2) (u_start_date p1))
    (or_else (u_end_date p2) (u_end_date p1)).

(** The record [get_active_announcements] would return for [d] is in its
    answer at time [now]. *)
Definition active_at (now : string) (db : Database) (d : Document) : Prop :=
  exists r, get_active_announcements now db = (Return r, db) /\
            In (stringify_id d) r.

(** Some announcement of the collection carries the identifier. *)
Definition present (oid : ObjectId) (docs : list Document) : Prop :=
  exists d, In d docs /\ _id d = oid.

(** Every stored announcement has a message and an end_date. *)
Definition required_fields (db : Database) : Prop :=
  Forall (fun d => message d <> None /\ end_date d <> None)
    (announcements_collection db).

(** The patch provides neither date. *)
Definition keeps_dates (p : AnnouncementUpdate) : Prop :=
  u_start_date p = None /\ u_end_date p = None.

(** ** Records at the boundary *)

(** The record [r] shows the stored document [d]: its [_id] is the
    hexadecimal form of [d]'s identifier, decoding back to it, and its five
    other fields are [d]'s. *)
Definition shows (d : Document) (r : Dict) : Prop :=
  _id r = hexlify (_id d) /\
  fromhex (_id r) = Some (_id d) /\
  message r = message d /\
  start_date r = start_date d /\
  end_date r = end_date d /\
  created_by r = created_by d /\
  created_at r = created_at d.




(** * Verification *)

(** ** String order *)

Lemma ascii_compare_refl (c : ascii) : Ascii.compare c c = Eq.
Proof. unfold Ascii.compare. apply N.compare_refl. Qed.



Lemma string_leb_empty (s : string) : String.leb EmptyString s = true.
Proof. now destruct s. Qed.

(** A falsy [start_date] is [None] or the empty string, and the empty string
    is below every string: the truth test never changes the answer of the
    comparison it guards. *)
Lemma start_date_test (v : option string) (now : string) :
  (if truthy v then py_le v now else true) = true <->
  v = None \/ exists s, v = Some s /\ String.leb s now = true.
Proof.
  destruct v as [[|c s]|]; simpl; split; intros H.
  - right. exists EmptyString. split; [reflexivity | apply string_leb_empty].
  - reflexivity.
  - right. now exists (String c s).
  - destruct H as [H|[s' [H1 H2]]]; [discriminate|]. now inversion H1; subst.
  - now left.
  - reflexivity.
Qed.

Lemma q_gte_iff (v : option string) (now : string) :
  q_gte v now = true <-> exists e, v = Some e /\ String.leb now e = true.
Proof.
  destruct v as [e|]; simpl; split; intros H.
  - now exists e.
  - destruct H as [e' [H1 H2]]. now inversion H1; subst.
  - discriminate.
  - destruct H as [e' [H1 _]]. discriminate.
Qed.

(** ** Hexadecimal codecs and [ObjectId] *)

Lemma byte_hex_roundtrip (x : Byte.byte) :
  Py_ISSPACE (hex_digit (Byte.to_N x / 16)) = false /\
  digit_value (hex_digit (Byte.to_N x / 16)) = Some (Byte.to_N x / 16) /\
  digit_value (hex_digit (Byte.to_N x mod 16)) = Some (Byte.to_N x mod 16) /\
  byte_of_N (16 * (Byte.to_N x / 16) + Byte.to_N x mod 16) = x.
Proof. destruct x; repeat split; vm_compute; reflexivity. Qed.

(** Parsing the string form of a byte string gives the byte string back. *)
Lemma fromhex_hexlify (b : bytes) : fromhex (hexlify b) = Some b.
Proof.
  induction b as [|x b IH]; [reflexivity|].
  destruct (byte_hex_roundtrip x) as [Hs [Hhi [Hlo Hx]]].
  cbn [hexlify fromhex]. now rewrite Hs, Hhi, Hlo, IH, Hx.
Qed.

Lemma hexlify_inj (a b : bytes) : hexlify a = hexlify b -> a = b.
Proof.
  intros H. apply (f_equal fromhex) in H.
  rewrite !fromhex_hexlify in H. now inversion H.
Qed.

Lemma stringify_id_inj (d1 d2 : Document) :
  stringify_id d1 = stringify_id d2 -> d1 = d2.
Proof.
  destruct d1, d2. unfold stringify_id, with_id, str. simpl.
  intros H. inversion H as [[Hid Hm Hs He Hb Ha]].
  apply hexlify_inj in Hid. now subst.
Qed.

Lemma hexlify_length (b : bytes) :
  String.length (hexlify b) = (2 * List.length b)%nat.
Proof. induction b as [|x b IH]; simpl; [reflexivity | rewrite IH; lia]. Qed.

Lemma pack_be_length (k : nat) (n : N) : List.length (pack_be k n) = k.
Proof. induction k as [|k IH]; simpl; [reflexivity | now rewrite IH]. Qed.

Lemma ObjectId_new_length (entropy : N) :
  List.length (ObjectId_new entropy) = 12%nat.
Proof. apply pack_be_length. Qed.

(** The string form of a 12-byte identifier parses back to it. *)
Lemma ObjectId_of_str_str (oid : ObjectId) :
  List.length oid = 12%nat -> ObjectId_of_str (str oid) = Some oid.
Proof.
  intros H. unfold ObjectId_of_str, str.
  rewrite hexlify_length, H. simpl. apply fromhex_hexlify.
Qed.

Lemma str_ObjectId_new_length (entropy : N) :
  String.length (str (ObjectId_new entropy)) = 24%nat.
Proof. unfold str. now rewrite hexlify_length, ObjectId_new_length. Qed.





Lemma stringify_id_shows (d : Document) : shows d (stringify_id d).
Proof.
  unfold shows, stringify_id, with_id, str. simpl.
  repeat split. apply fromhex_hexlify.
Qed.






(** ** The teacher guard *)

Lemma find_teacher_None (username : string) (l : list string) :
  find (String.eqb username) l = None <-> ~ In username l.
Proof.
  induction l as [|t l IH]; simpl.
  - tauto.
  - destruct (String.eqb_spec username t) as [->|Hne].
    + split; [discriminate | intros H; exfalso; apply H; now left].
    + rewrite IH. split.
      * intros H [H'|H']; [now apply Hne | now apply H].
      * intros H H'. apply H. now right.
Qed.

Lemma verify_teacher_ok (username : string) (db : Database) :
  In username (teachers_collection db) ->
  verify_teacher username db = (Return tt, db).
Proof.
  intros Hin. unfold verify_teacher, bind, teachers_find_one.
  destruct (find (String.eqb username) (teachers_collection db)) eqn:E.
  - reflexivity.
  - apply find_teacher_None in E. contradiction.
Qed.

Lemma verify_teacher_fail (username : string) (db : Database) :
  ~ In username (teachers_collection db) ->
  verify_teacher username db = (Raise Unauthorized, db).
Proof.
  intros Hin. unfold verify_teacher, bind, teachers_find_one.
  apply find_teacher_None in Hin. now rewrite Hin.
Qed.

Lemma teacher_dec (username : string) (db : Database) :
  {In username (teachers_collection db)} + {~ In username (teachers_collection db)}.
Proof. apply in_dec, string_dec. Qed.

(** ** The loop of [get_active_announcements] is a filter *)

Lemma active_loop_filter (now : string) (l acc : list Document) :
  fold_left
    (fun active announcement =>
       if truthy (start_date announcement) then
         if py_le (start_date announcement) now
         then active ++ [announcement]
         else active
       else active ++ [announcement])
    l acc
  = acc ++ filter (start_ok now) l.
Proof.
  revert acc. induction l as [|d l IH]; intros acc; simpl.
  - now rewrite app_nil_r.
  - rewrite IH. unfold start_ok at 2.
    destruct (truthy (start_date d)); [destruct (py_le (start_date d) now)|];
      try reflexivity; now rewrite <- app_assoc.
Qed.

Lemma get_active_announcements_eq (now : string) (db : Database) :
  get_active_announcements now db =
  (Return (map stringify_id
             (filter (start_ok now)
                (filter (fun d => q_gte (end_date d) now)
                   (announcements_collection db)))), db).
Proof.
  unfold get_active_announcements, bind, announcements_find, ret.
  now rewrite active_loop_filter.
Qed.

Lemma get_all_announcements_ok (username : string) (db : Database) :
  In username (teachers_collection db) ->
  get_all_announcements username db =
  (Return (map stringify_id (announcements_collection db)), db).
Proof.
  intros Hin. unfold get_all_announcements, bind.
  rewrite (verify_teacher_ok _ _ Hin).
  unfold announcements_find, ret.
  f_equal. f_equal. f_equal.
  induction (announcements_collection db) as [|d l IH]; simpl; congruence.
Qed.

Lemma get_all_announcements_fail (username : string) (db : Database) :
  ~ In username (teachers_collection db) ->
  get_all_announcements username db = (Raise Unauthorized, db).
Proof.
  intros Hin. unfold get_all_announcements, bind.
  now rewrite (verify_teacher_fail _ _ Hin).
Qed.

(** ** Claims *)



Lemma map_stringify_id_shows (l : list Document) :
  Forall2 shows l (map stringify_id l).
Proof.
  induction l as [|d l IH]; simpl; constructor;
    [apply stringify_id_shows | exact IH].
Qed.

(** C2.  [get_all_announcements] fails with Unauthorized exactly when no
    teacher document has the username as its [_id], and it fails in no other
    way; when one has, it returns one record per announcement of the
    collection, in the collection's order and unfiltered, each carrying the
    stored message, start_date, end_date, created_by and created_at and, as
    [_id], the hexadecimal string of the stored identifier (which decodes
    back to it); the database is left as it was. *)
Theorem list_all_auth_unfiltered (username : string) (db : Database) :
  (get_all_announcements username db = (Raise Unauthorized, db) <->
   ~ In username (teachers_collection db)) /\
  (In username (teachers_collection db) ->
   get_all_announcements username db =
   (Return (map stringify_id (announcements_collection db)), db)) /\
  (forall e db', get_all_announcements username db = (Raise e, db') ->
                 e = Unauthorized) /\
  (In username (teachers_collection db) ->
   exists l,
     get_all_announcements username db = (Return l, db) /\
     Forall2 shows (announcements_collection db) l /\
     List.length l = List.length (announcements_collection db) /\
     (forall d, In d (announcements_collection db) ->
                exists r, In r l /\ shows d r)).
Proof.
  split; [|split; [|split]].
  - split.
    + intros H Hin. rewrite (get_all_announcements_ok _ _ Hin) in H. discriminate.
    + apply get_all_announcements_fail.
  - apply get_all_announcements_ok.
  - intros e db' H. destruct (teacher_dec username db) as [Hin|Hin].
    + rewrite (get_all_announcements_ok _ _ Hin) in H. discriminate.
    + rewrite (get_all_announcements_fail _ _ Hin) in H. congruence.
  - intros Hin. eexists. split; [now apply get_all_announcements_ok|].
    split; [apply map_stringify_id_shows|]. split; [apply length_map|].
    intros d Hd. exists (stringify_id d).
    split; [now apply in_map | apply stringify_id_shows].
Qed.

Lemma list_all_auth_unfiltered_witness :
  get_all_announcements "nobody" sample_db = (Raise Unauthorized, sample_db) /\
  get_all_announcements "mchen" sample_db =
  (Return (map stringify_id (announcements_collection sample_db)), sample_db) /\
  exists l,
    get_all_announcements "mchen" sample_db = (Return l, sample_db) /\
    Forall2 shows (announcements_collection sample_db) l.
Proof.
  destruct (list_all_auth_unfiltered "nobody" sample_db) as [[_ H401] _].
  destruct (list_all_auth_unfiltered "mchen" sample_db) as (_ & Hok & _ & Hshow).
  split; [|split].
  - apply H401. simpl. intros [H|[H|[]]]; discriminate.
  - apply Hok. simpl. right. now left.
  - destruct Hshow as (l & Hl & Hf & _); [simpl; right; now left|].
    exists l. now split.
Defined.

(** ** create *)

Lemma existsb_has_id_false (oid : ObjectId) (l : list Document) :
  existsb (has_id oid) l = false <-> forall d, In d l -> _id d <> oid.
Proof.
  induction l as [|x l IH]; simpl.
  - split; [intros _ d [] | reflexivity].
  - rewrite orb_false_iff, IH. unfold has_id at 1, ObjectId_eqb.
    destruct (ObjectId_eq_dec (_id x) oid) as [E|E]; split.
    + intros [H _]. discriminate.
    + intros H. exfalso. apply (H x); [now left | exact E].
    + intros [_ H] d [<-|Hd]; [exact E | now apply H].
    + intros H. split; [reflexivity|]. intros d Hd. apply H. now right.
Qed.

Lemma has_id_true (oid : ObjectId) (d : Document) :
  has_id oid d = true <-> _id d = oid.
Proof.
  unfold has_id, ObjectId_eqb.
  destruct (ObjectId_eq_dec (_id d) oid); split; congruence.
Qed.

Lemma has_id_false (oid : ObjectId) (d : Document) :
  has_id oid d = false <-> _id d <> oid.
Proof.
  unfold has_id, ObjectId_eqb.
  destruct (ObjectId_eq_dec (_id d) oid); split; congruence.
Qed.

(** The document [create_announcement] stores. *)
Lemma create_announcement_ok (now : string) (entropy : N)
    (a : AnnouncementCreate) (db : Database) :
  In (c_created_by a) (teachers_collection db) ->
  (forall d, In d (announcements_collection db) -> _id d <> ObjectId_new entropy) ->
  create_announcement now entropy a db =
  (Return (stringify_id
             (mkAnnouncement (ObjectId_new entropy) (Some (c_message a))
                (c_start_date a) (Some (c_end_date a)) (c_created_by a) now)),
   mkDatabase
     (announcements_collection db ++
        [mkAnnouncement (ObjectId_new entropy) (Some (c_message a))
           (c_start_date a) (Some (c_end_date a)) (c_created_by a) now])
     (teachers_collection db)).
Proof.
  intros Hin Hfresh. unfold create_announcement, bind.
  rewrite (verify_teacher_ok _ _ Hin). unfold insert_one.
  apply existsb_has_id_false in Hfresh. rewrite Hfresh. reflexivity.
Qed.

Lemma create_announcement_fail (now : string) (entropy : N)
    (a : AnnouncementCreate) (db : Database) :
  ~ In (c_created_by a) (teachers_collection db) ->
  create_announcement now entropy a db = (Raise Unauthorized, db).
Proof.
  intros Hin. unfold create_announcement, bind.
  now rewrite (verify_teacher_fail _ _ Hin).
Qed.

(** C3.  When [created_by] is the [_id] of a teacher document (and the
    identifier the driver generates is not yet in the collection),
    [create_announcement] appends one document whose message, start_date,
    end_date and created_by are the request's and whose created_at is the
    current time, and returns that document as a record: the same five
    fields, and as [_id] the 24-character hexadecimal string of the
    generated identifier, which [ObjectId] parses back to the identifier
    stored.  When [created_by] names no teacher it fails with Unauthorized
    and stores nothing. *)
Theorem create_inserts_and_returns (now : string) (entropy : N)
    (a : AnnouncementCreate) (db : Database) :
  (In (c_created_by a) (teachers_collection db) ->
   (forall d, In d (announcements_collection db) -> _id d <> ObjectId_new entropy) ->
   exists (d : Document) (r : Dict),
     create_announcement now entropy a db =
     (Return r,
      mkDatabase (announcements_collection db ++ [d]) (teachers_collection db)) /\
     r = stringify_id d /\
     _id d = ObjectId_new entropy /\
     message d = Some (c_message a) /\
     start_date d = c_start_date a /\
     end_date d = Some (c_end_date a) /\
     created_by d = c_created_by a /\
     created_at d = now /\
     _id (stringify_id d) = str (ObjectId_new entropy) /\
     ObjectId_of_str (_id r) = Some (_id d) /\
     String.length (_id r) = 24%nat /\
     message r = Some (c_message a) /\
     start_date r = c_start_date a /\
     end_date r = Some (c_end_date a) /\
     created_by r = c_created_by a /\
     created_at r = now) /\
  (~ In (c_created_by a) (teachers_collection db) ->
   create_announcement now entropy a db = (Raise Unauthorized, db)).
Proof.
  split.
  - intros Hin Hfresh. do 2 eexists.
    split; [apply create_announcement_ok; assumption|].
    split; [reflexivity|].
    cbn [_id message start_date end_date created_by created_at
         stringify_id with_id].
    repeat split.
    apply ObjectId_of_str_str, ObjectId_new_length.
  - apply create_announcement_fail.
Qed.

Lemma create_inserts_and_returns_witness :
  (exists (d : Document) (r : Dict),
     create_announcement "2026-03-01T12:00:00" 4 sample_create sample_db =
     (Return r,
      mkDatabase (announcements_collection sample_db ++ [d]) sample_teachers) /\
     message d = Some "Parent-teacher conferences" /\
     created_at d = "2026-03-01T12:00:00" /\
     _id r = "000000000000000000000004" /\
     ObjectId_of_str (_id r) = Some (_id d)) /\
  create_announcement "2026-03-01T12:00:00" 4
    (mkCreate "Hello" None "2026-04-01T00:00:00" "nobody") sample_db =
  (Raise Unauthorized, sample_db).
Proof.
  destruct (create_inserts_and_returns "2026-03-01T12:00:00" 4 sample_create
              sample_db) as [Hok _].
  destruct (create_inserts_and_returns "2026-03-01T12:00:00" 4
              (mkCreate "Hello" None "2026-04-01T00:00:00" "nobody") sample_db)
    as [_ H401].
  split.
  - destruct Hok as (d & r & Hc & Hr & Hid & Hm & _ & _ & _ & Hat & Hs & Hp & _).
    + simpl. right. now left.
    + intros d Hd. simpl in Hd.
      destruct Hd as [<-|[<-|[<-|[]]]]; vm_compute; discriminate.
    + exists d, r. split; [exact Hc|]. split; [exact Hm|]. split; [exact Hat|].
      split; [|exact Hp]. rewrite Hr, Hs. reflexivity.
  - apply H401. simpl. intros [H|[H|[]]]; discriminate.
Defined.

(** ** update *)

Lemma db_eta (db : Database) :
  mkDatabase (announcements_collection db) (teachers_collection db) = db.
Proof. now destruct db. Qed.

Lemma build_update_doc_nil (p : AnnouncementUpdate) :
  build_update_doc p = [] <-> empty_patch p.
Proof.
  unfold build_update_doc, setitem, empty_patch.
  destruct (u_message p), (u_start_date p), (u_end_date p); simpl;
    split; intros H; try discriminate; try (now repeat split);
    destruct H as [H1 [H2 H3]]; discriminate.
Qed.

Lemma apply_set_build (p : AnnouncementUpdate) (d : Document) :
  apply_set (build_update_doc p) d = patched p d.
Proof.
  unfold apply_set, build_update_doc, setitem, patched, or_else.
  destruct d, (u_message p), (u_start_date p), (u_end_date p); reflexivity.
Qed.

Lemma first_match (oid : ObjectId) (docs : list Document) :
  absent oid docs \/ exists before d after, selects oid docs before d after.
Proof.
  induction docs as [|x l IH].
  - left. intros x [].
  - destruct (ObjectId_eq_dec (_id x) oid) as [E|E].
    + right. exists [], x, l. repeat split; [exact E | intros y []].
    + destruct IH as [IH|[before [d [after [H1 [H2 H3]]]]]].
      * left. intros y [<-|Hy]; [exact E | now apply IH].
      * right. exists (x :: before), d, after. repeat split.
        -- simpl. now rewrite H1.
        -- exact H2.
        -- intros y [<-|Hy]; [exact E | now apply H3].
Qed.

Lemma selects_not_absent (oid : ObjectId) (docs before after : list Document)
    (d : Document) :
  selects oid docs before d after -> absent oid docs -> False.
Proof.
  intros [H1 [H2 _]] Ha. apply (Ha d); [|exact H2].
  rewrite H1. apply in_or_app. right. now left.
Qed.

Lemma selects_unique (oid : ObjectId) (docs b1 a1 b2 a2 : list Document)
    (d1 d2 : Document) :
  selects oid docs b1 d1 a1 -> selects oid docs b2 d2 a2 ->
  b1 = b2 /\ d1 = d2 /\ a1 = a2.
Proof.
  intros [H1 [E1 N1]] [H2 [E2 N2]]. rewrite H1 in H2. clear H1.
  revert b2 H2 N2. induction b1 as [|x b1 IH]; intros [|y b2] H2 N2; simpl in *.
  - injection H2 as Hd Ha. now repeat split.
  - injection H2 as Hd Ha. exfalso. apply (N2 y); [now left | now rewrite <- Hd].
  - injection H2 as Hd Ha. exfalso. apply (N1 x); [now left | now rewrite Hd].
  - injection H2 as Hx Hr.
    destruct (IH (fun z Hz => N1 z (or_intror Hz)) b2 Hr) as [Hb [Hd Ha]].
    + intros z Hz. apply N2. now right.
    + repeat split; congruence.
Qed.

Lemma update_first_absent (oid : ObjectId) (u : update_document)
    (docs : list Document) :
  absent oid docs -> update_first oid u docs = (0, docs).
Proof.
  induction docs as [|x l IH]; intros Ha; simpl; [reflexivity|].
  assert (E : has_id oid x = false) by (apply has_id_false, Ha; now left).
  rewrite E, IH; [reflexivity|]. intros y Hy. apply Ha. now right.
Qed.

Lemma update_first_selects (oid : ObjectId) (u : update_document)
    (docs before after : list Document) (d : Document) :
  selects oid docs before d after ->
  update_first oid u docs = (1, before ++ apply_set u d :: after).
Proof.
  intros [-> [E N]]. induction before as [|x l IH]; simpl.
  - apply has_id_true in E. now rewrite E.
  - assert (Ex : has_id oid x = false) by (apply has_id_false, N; now left).
    rewrite Ex, IH; [reflexivity|]. intros y Hy. apply N. now right.
Qed.

Lemma delete_first_absent (oid : ObjectId) (docs : list Document) :
  absent oid docs -> delete_first oid docs = (0, docs).
Proof.
  induction docs as [|x l IH]; intros Ha; simpl; [reflexivity|].
  assert (E : has_id oid x = false) by (apply has_id_false, Ha; now left).
  rewrite E, IH; [reflexivity|]. intros y Hy. apply Ha. now right.
Qed.

Lemma delete_first_selects (oid : ObjectId) (docs before after : list Document)
    (d : Document) :
  selects oid docs before d after ->
  delete_first oid docs = (1, before ++ after).
Proof.
  intros [-> [E N]]. induction before as [|x l IH]; simpl.
  - apply has_id_true in E. now rewrite E.
  - assert (Ex : has_id oid x = false) by (apply has_id_false, N; now left).
    rewrite Ex, IH; [reflexivity|]. intros y Hy. apply N. now right.
Qed.

Lemma find_selects (oid : ObjectId) (docs before after : list Document)
    (d : Document) :
  selects oid docs before d after -> find (has_id oid) docs = Some d.
Proof.
  intros [-> [E N]]. induction before as [|x l IH]; simpl.
  - apply has_id_true in E. now rewrite E.
  - assert (Ex : has_id oid x = false) by (apply has_id_false, N; now left).
    rewrite Ex. apply IH. intros y Hy. apply N. now right.
Qed.

Lemma find_absent (oid : ObjectId) (docs : list Document) :
  absent oid docs -> find (has_id oid) docs = None.
Proof.
  induction docs as [|x l IH]; intros Ha; simpl; [reflexivity|].
  assert (E : has_id oid x = false) by (apply has_id_false, Ha; now left).
  rewrite E. apply IH. intros y Hy. apply Ha. now right.
Qed.

Lemma find_Some_selects (oid : ObjectId) (docs : list Document) (d : Document) :
  find (has_id oid) docs = Some d ->
  exists before after, selects oid docs before d after.
Proof.
  intros H. destruct (first_match oid docs) as [Ha|[b [d' [a Hs]]]].
  - rewrite (find_absent _ _ Ha) in H. discriminate.
  - rewrite (find_selects _ _ _ _ _ Hs) in H. inversion H; subst. now exists b, a.
Qed.

Lemma selects_patched (oid : ObjectId) (p : AnnouncementUpdate)
    (docs before after : list Document) (d : Document) :
  selects oid docs before d after ->
  selects oid (before ++ patched p d :: after) before (patched p d) after.
Proof. intros [_ [E N]]. now repeat split. Qed.

(** The five outcomes of [update_announcement], in the order the handler
    decides them. *)

Lemma update_unauthorized (id : string) (p : AnnouncementUpdate)
    (username : string) (db : Database) :
  ~ In username (teachers_collection db) ->
  update_announcement id p username db = (Raise Unauthorized, db).
Proof.
  intros Hin. unfold update_announcement, bind.
  now rewrite (verify_teacher_fail _ _ Hin).
Qed.

Lemma update_bad_request (id : string) (p : AnnouncementUpdate)
    (username : string) (db : Database) :
  In username (teachers_collection db) ->
  empty_patch p ->
  update_announcement id p username db = (Raise BadRequest, db).
Proof.
  intros Hin Hp. unfold update_announcement, bind.
  rewrite (verify_teacher_ok _ _ Hin).
  apply build_update_doc_nil in Hp. now rewrite Hp.
Qed.

Lemma update_invalid_id (id : string) (p : AnnouncementUpdate)
    (username : string) (db : Database) :
  In username (teachers_collection db) ->
  ~ empty_patch p ->
  ObjectId_of_str id = None ->
  update_announcement id p username db = (Raise (InvalidId id), db).
Proof.
  intros Hin Hp Hid. unfold update_announcement, bind.
  rewrite (verify_teacher_ok _ _ Hin).
  rewrite <- build_update_doc_nil in Hp.
  destruct (build_update_doc p) as [|kv u]; [contradiction|].
  unfold ObjectId_. now rewrite Hid.
Qed.

Lemma update_not_found (id : string) (p : AnnouncementUpdate)
    (username : string) (db : Database) (oid : ObjectId) :
  In username (teachers_collection db) ->
  ~ empty_patch p ->
  ObjectId_of_str id = Some oid ->
  absent oid (announcements_collection db) ->
  update_announcement id p username db = (Raise NotFound, db).
Proof.
  intros Hin Hp Hid Ha. unfold update_announcement, bind.
  rewrite (verify_teacher_ok _ _ Hin).
  rewrite <- build_update_doc_nil in Hp.
  destruct (build_update_doc p) as [|kv u] eqn:Eu; [contradiction|].
  unfold ObjectId_. rewrite Hid. unfold ret, update_one.
  rewrite (update_first_absent _ _ _ Ha). simpl. unfold raise.
  now rewrite db_eta.
Qed.

Lemma update_ok (id : string) (p : AnnouncementUpdate)
    (username : string) (db : Database) (oid : ObjectId)
    (before after : list Document) (d : Document) :
  In username (teachers_collection db) ->
  ~ empty_patch p ->
  ObjectId_of_str id = Some oid ->
  selects oid (announcements_collection db) before d after ->
  update_announcement id p username db =
  (Return (stringify_id (patched p d)),
   mkDatabase (before ++ patched p d :: after) (teachers_collection db)).
Proof.
  intros Hin Hp Hid Hs. unfold update_announcement, bind.
  rewrite (verify_teacher_ok _ _ Hin).
  rewrite <- build_update_doc_nil in Hp.
  destruct (build_update_doc p) as [|kv u] eqn:Eu; [contradiction|].
  unfold ObjectId_. rewrite Hid. unfold ret, update_one.
  assert (Ea : apply_set (kv :: u) d = patched p d)
    by (rewrite <- Eu; apply apply_set_build).
  rewrite (update_first_selects _ _ _ _ _ _ Hs), Ea.
  unfold announcements_find_one. cbn [N.eqb fst snd announcements_collection].
  now rewrite (find_selects _ _ _ _ _ (selects_patched _ p _ _ _ _ Hs)).
Qed.

Lemma empty_patch_dec (p : AnnouncementUpdate) : {empty_patch p} + {~ empty_patch p}.
Proof.
  unfold empty_patch.
  destruct (u_message p), (u_start_date p), (u_end_date p);
    try (right; intros [H1 [H2 H3]]; discriminate).
  left. now repeat split.
Qed.

Theorem update_announcement_outcome (id : string) (p : AnnouncementUpdate)
    (username : string) (db : Database) :
  update_outcome id p username db (update_announcement id p username db).
Proof.
  destruct (teacher_dec username db) as [Hin|Hin].
  2: { rewrite (update_unauthorized _ _ _ _ Hin). now constructor. }
  destruct (empty_patch_dec p) as [Hp|Hp].
  { rewrite (update_bad_request _ _ _ _ Hin Hp). now constructor. }
  destruct (ObjectId_of_str id) as [oid|] eqn:Hid.
  2: { rewrite (update_invalid_id _ _ _ _ Hin Hp Hid). now constructor. }
  destruct (first_match oid (announcements_collection db))
    as [Ha|[before [d [after Hs]]]].
  - rewrite (update_not_found _ _ _ _ _ Hin Hp Hid Ha). eapply update_404; eassumption.
  - rewrite (update_ok _ _ _ _ _ _ _ _ Hin Hp Hid Hs). eapply update_200; eassumption.
Qed.

(** ** delete *)

Lemma delete_unauthorized (id username : string) (db : Database) :
  ~ In username (teachers_collection db) ->
  delete_announcement id username db = (Raise Unauthorized, db).
Proof.
  intros Hin. unfold delete_announcement, bind.
  now rewrite (verify_teacher_fail _ _ Hin).
Qed.

Lemma delete_invalid_id (id username : string) (db : Database) :
  In username (teachers_collection db) ->
  ObjectId_of_str id = None ->
  delete_announcement id username db = (Raise (InvalidId id), db).
Proof.
  intros Hin Hid. unfold delete_announcement, bind.
  rewrite (verify_teacher_ok _ _ Hin). unfold ObjectId_. now rewrite Hid.
Qed.

Lemma delete_not_found (id username : string) (db : Database) (oid : ObjectId) :
  In username (teachers_collection db) ->
  ObjectId_of_str id = Some oid ->
  absent oid (announcements_collection db) ->
  delete_announcement id username db = (Raise NotFound, db).
Proof.
  intros Hin Hid Ha. unfold delete_announcement, bind.
  rewrite (verify_teacher_ok _ _ Hin). unfold ObjectId_. rewrite Hid.
  unfold ret, delete_one. rewrite (delete_first_absent _ _ Ha). simpl.
  unfold raise. now rewrite db_eta.
Qed.

Lemma delete_ok (id username : string) (db : Database) (oid : ObjectId)
    (before after : list Document) (d : Document) :
  In username (teachers_collection db) ->
  ObjectId_of_str id = Some oid ->
  selects oid (announcements_collection db) before d after ->
  delete_announcement id username db =
  (Return deleted_ack, mkDatabase (before ++ after) (teachers_collection db)).
Proof.
  intros Hin Hid Hs. unfold delete_announcement, bind.
  rewrite (verify_teacher_ok _ _ Hin). unfold ObjectId_. rewrite Hid.
  unfold ret, delete_one. now rewrite (delete_first_selects _ _ _ _ _ Hs).
Qed.

Theorem delete_announcement_outcome (id username : string) (db : Database) :
  delete_outcome id username db (delete_announcement id username db).
Proof.
  destruct (teacher_dec username db) as [Hin|Hin].
  2: { rewrite (delete_unauthorized _ _ _ Hin). now constructor. }
  destruct (ObjectId_of_str id) as [oid|] eqn:Hid.
  2: { rewrite (delete_invalid_id _ _ _ Hin Hid). now constructor. }
  destruct (first_match oid (announcements_collection db))
    as [Ha|[before [d [after Hs]]]].
  - rewrite (delete_not_found _ _ _ _ Hin Hid Ha). eapply delete_404; eassumption.
  - rewrite (delete_ok _ _ _ _ _ _ _ Hin Hid Hs). eapply delete_200; eassumption.
Qed.

Lemma sample_db_str_ids (s : string) :
  String.length s <> 24%nat ->
  forall d, In d (announcements_collection sample_db) -> str (_id d) <> s.
Proof.
  intros Hlen d Hd E. apply Hlen. rewrite <- E.
  simpl in Hd. destruct Hd as [<-|[<-|[<-|[]]]]; reflexivity.
Qed.

(** C4, as stated, fails: for an authorized user and a non-empty patch, an
    id that matches no announcement does not always give NotFound.  On the
    sample database no announcement has the identifier string
    "not-an-object-id", and the update ends in bson's [InvalidId]. *)
Lemma update_unknown_id_not_404 :
  In "mrodriguez" (teachers_collection sample_db) /\
  ~ empty_patch sample_patch /\
  (forall d, In d (announcements_collection sample_db) ->
             str (_id d) <> "not-an-object-id") /\
  update_announcement "not-an-object-id" sample_patch "mrodriguez" sample_db =
  (Raise (InvalidId "not-an-object-id"), sample_db) /\
  update_announcement "not-an-object-id" sample_patch "mrodriguez" sample_db <>
  (Raise NotFound, sample_db).
Proof.
  split; [simpl; now left|].
  split; [intros [H _]; discriminate|].
  split; [apply sample_db_str_ids; simpl; lia|].
  split; [reflexivity | discriminate].
Qed.

(** C4, amended.  For an authorized username: a patch that provides none of
    message, start_date, end_date fails with BadRequest, whatever the id (so
    before any lookup); a non-empty patch whose id parses as an [ObjectId]
    that no announcement carries fails with NotFound.  Both leave the
    database unchanged. *)
Theorem update_bad_request_then_not_found (id : string)
    (p : AnnouncementUpdate) (username : string) (db : Database) :
  In username (teachers_collection db) ->
  (empty_patch p ->
   update_announcement id p username db = (Raise BadRequest, db)) /\
  (~ empty_patch p ->
   forall oid, ObjectId_of_str id = Some oid ->
               absent oid (announcements_collection db) ->
               update_announcement id p username db = (Raise NotFound, db)).
Proof.
  intros Hin. split.
  - now apply update_bad_request.
  - intros Hp oid Hid Ha. now apply update_not_found with oid.
Qed.

Lemma update_bad_request_then_not_found_witness :
  update_announcement "00000000000000000000002a" (mkUpdate None None None)
    "mrodriguez" sample_db = (Raise BadRequest, sample_db) /\
  update_announcement "00000000000000000000002a" sample_patch
    "mrodriguez" sample_db = (Raise NotFound, sample_db).
Proof.
  destruct (update_bad_request_then_not_found "00000000000000000000002a"
              (mkUpdate None None None) "mrodriguez" sample_db) as [H1 _];
    [simpl; now left|].
  destruct (update_bad_request_then_not_found "00000000000000000000002a"
              sample_patch "mrodriguez" sample_db) as [_ H2];
    [simpl; now left|].
  split.
  - apply H1. now repeat split.
  - apply H2 with (oid := ObjectId_new 42).
    + intros [H _]. discriminate.
    + reflexivity.
    + intros d Hd. simpl in Hd.
      destruct Hd as [<-|[<-|[<-|[]]]]; vm_compute; discriminate.
Defined.

Lemma patched_fields (p : AnnouncementUpdate) (d : Document) :
  _id (patched p d) = _id d /\
  created_by (patched p d) = created_by d /\
  created_at (patched p d) = created_at d /\
  (u_message p = None -> message (patched p d) = message d) /\
  (forall v, u_message p = Some v -> message (patched p d) = Some v) /\
  (u_start_date p = None -> start_date (patched p d) = start_date d) /\
  (forall v, u_start_date p = Some v -> start_date (patched p d) = Some v) /\
  (u_end_date p = None -> end_date (patched p d) = end_date d) /\
  (forall v, u_end_date p = Some v -> end_date (patched p d) = Some v).
Proof.
  unfold patched, or_else. simpl.
  repeat split; intros; match goal with H : _ = _ |- _ => now rewrite H end.
Qed.

(** C5.  A successful update rewrites one document, the one the id selects,
    and nothing else: the documents before and after it in the collection
    and the teachers are as they were; in the rewritten document [_id],
    created_by and created_at are unchanged, each of message, start_date and
    end_date that the patch does not provide keeps its value and each one it
    provides takes the patch's value; the handler returns that document. *)
Theorem update_changes_only_patched_fields (id : string)
    (p : AnnouncementUpdate) (username : string) (db db' : Database) (r : Dict) :
  update_announcement id p username db = (Return r, db') ->
  exists oid before d after d',
    ObjectId_of_str id = Some oid /\
    selects oid (announcements_collection db) before d after /\
    announcements_collection db' = before ++ d' :: after /\
    teachers_collection db' = teachers_collection db /\
    r = stringify_id d' /\
    _id d' = _id d /\
    created_by d' = created_by d /\
    created_at d' = created_at d /\
    (u_message p = None -> message d' = message d) /\
    (forall v, u_message p = Some v -> message d' = Some v) /\
    (u_start_date p = None -> start_date d' = start_date d) /\
    (forall v, u_start_date p = Some v -> start_date d' = Some v) /\
    (u_end_date p = None -> end_date d' = end_date d) /\
    (forall v, u_end_date p = Some v -> end_date d' = Some v).
Proof.
  intros H. pose proof (update_announcement_outcome id p username db) as O.
  rewrite H in O. inversion O; subst.
  do 4 eexists. exists (patched p d).
  split; [eassumption|]. split; [eassumption|].
  split; [reflexivity|]. split; [reflexivity|]. split; [reflexivity|].
  apply patched_fields.
Qed.

Lemma update_changes_only_patched_fields_witness :
  exists (oid : ObjectId) (before : list Document) (d : Document)
         (after : list Document) (d' : Document),
    ObjectId_of_str "000000000000000000000002" = Some oid /\
    selects oid (announcements_collection sample_db) before d after /\
    announcements_collection
      (snd (update_announcement "000000000000000000000002" sample_patch
              "mrodriguez" sample_db)) = before ++ d' :: after /\
    message d' = Some "Science fair moved to the gym" /\
    start_date d' = start_date d /\
    end_date d' = end_date d /\
    created_at d' = created_at d.
Proof.
  destruct (update_changes_only_patched_fields "000000000000000000000002"
              sample_patch "mrodriguez" sample_db
              (snd (update_announcement "000000000000000000000002"
                      sample_patch "mrodriguez" sample_db))
              (stringify_id
                 (patched sample_patch
                    (sample_doc 2 (Some "2026-09-01T00:00:00")
                       "2026-12-31T00:00:00"))) eq_refl)
    as (oid & before & d & after & d' & Hid & Hs & Hdb & _ & _ & _ & _ & Hat
          & _ & Hm & Hsd & _ & He & _).
  exists oid, before, d, after, d'.
  split; [exact Hid|]. split; [exact Hs|]. split; [exact Hdb|].
  split; [now apply Hm|]. split; [now apply Hsd|]. split; [now apply He|].
  exact Hat.
Defined.

(** ** Unique identifiers *)

Lemma unique_selects_absent (oid : ObjectId) (docs before after : list Document)
    (d : Document) :
  NoDup (map _id docs) ->
  selects oid docs before d after ->
  absent oid (before ++ after).
Proof.
  intros Hnd [-> [E _]] x Hx Ex.
  rewrite map_app in Hnd. simpl in Hnd.
  apply NoDup_remove_2 in Hnd. apply Hnd.
  rewrite <- map_app, E, <- Ex. now apply in_map.
Qed.

Lemma NoDup_snoc {A : Type} (l : list A) (a : A) :
  NoDup l -> ~ In a l -> NoDup (l ++ [a]).
Proof.
  induction l as [|x l IH]; intros Hnd Hn; simpl.
  - constructor; [intros [] | constructor].
  - inversion Hnd; subst. constructor.
    + rewrite in_app_iff. intros [H|[H|[]]]; [contradiction|].
      apply Hn. now left.
    + apply IH; [assumption|]. intros H. apply Hn. now right.
Qed.

Lemma unique_ids_create (now : string) (entropy : N) (a : AnnouncementCreate)
    (db : Database) :
  unique_ids db -> unique_ids (snd (create_announcement now entropy a db)).
Proof.
  intros Hu. destruct (teacher_dec (c_created_by a) db) as [Hin|Hin].
  2: { now rewrite (create_announcement_fail _ _ _ _ Hin). }
  unfold create_announcement, bind. rewrite (verify_teacher_ok _ _ Hin).
  unfold insert_one.
  destruct (existsb (has_id (ObjectId_new entropy)) (announcements_collection db))
    eqn:E; [exact Hu|].
  pose proof (proj1 (existsb_has_id_false _ _) E) as Hfresh.
  unfold unique_ids. simpl. rewrite map_app. simpl.
  apply NoDup_snoc; [exact Hu|].
  intros H. apply in_map_iff in H. destruct H as [x [Hx Hxin]].
  now apply (Hfresh x).
Qed.

Lemma unique_ids_update (id : string) (p : AnnouncementUpdate)
    (username : string) (db : Database) :
  unique_ids db -> unique_ids (snd (update_announcement id p username db)).
Proof.
  intros Hu. destruct (update_announcement_outcome id p username db); try exact Hu.
  unfold unique_ids in *. simpl.
  match goal with H : selects _ _ _ _ _ |- _ => destruct H as [E _] end.
  rewrite E in Hu. rewrite map_app in *. exact Hu.
Qed.

Lemma unique_ids_delete (id username : string) (db : Database) :
  unique_ids db -> unique_ids (snd (delete_announcement id username db)).
Proof.
  intros Hu. destruct (delete_announcement_outcome id username db); try exact Hu.
  unfold unique_ids in *. simpl.
  match goal with H : selects _ _ _ _ _ |- _ => destruct H as [E _] end.
  rewrite E in Hu. rewrite map_app in *. simpl in Hu.
  now apply NoDup_remove_1 in Hu.
Qed.

(** C6, as stated, fails: for an authorized user, an id that matches no
    announcement does not always give NotFound.  On the sample database no
    announcement has the identifier string "not-an-object-id", and the delete
    ends in bson's [InvalidId]. *)
Lemma delete_unknown_id_not_404 :
  In "mrodriguez" (teachers_collection sample_db) /\
  (forall d, In d (announcements_collection sample_db) ->
             str (_id d) <> "not-an-object-id") /\
  delete_announcement "not-an-object-id" "mrodriguez" sample_db =
  (Raise (InvalidId "not-an-object-id"), sample_db) /\
  delete_announcement "not-an-object-id" "mrodriguez" sample_db <>
  (Raise NotFound, sample_db).
Proof.
  split; [simpl; now left|].
  split; [apply sample_db_str_ids; simpl; lia|].
  split; [reflexivity | discriminate].
Qed.

(** C6, amended.  For an authorized username and an id that parses as an
    [ObjectId], in a collection with unique identifiers: when an announcement
    carries the identifier, delete removes exactly that document (the others
    stay, in order), answers the acknowledgment, the document is absent from
    what any later [get_all_announcements] returns, and a second delete of
    the same id fails with NotFound; when no announcement carries it, delete
    fails with NotFound and changes nothing. *)
Theorem delete_removes_one_or_not_found (id username : string) (db : Database)
    (oid : ObjectId) :
  In username (teachers_collection db) ->
  ObjectId_of_str id = Some oid ->
  unique_ids db ->
  (absent oid (announcements_collection db) ->
   delete_announcement id username db = (Raise NotFound, db)) /\
  (forall before d after,
     selects oid (announcements_collection db) before d after ->
     exists db',
       delete_announcement id username db = (Return deleted_ack, db') /\
       announcements_collection db' = before ++ after /\
       teachers_collection db' = teachers_collection db /\
       (forall reader, In reader (teachers_collection db') ->
          exists l,
            get_all_announcements reader db' = (Return l, db') /\
            ~ In (stringify_id d) l /\
            (forall r, In r l -> _id r <> str oid) /\
            (forall x, In x (announcements_collection db) -> x <> d ->
                       In (stringify_id x) l)) /\
       delete_announcement id username db' = (Raise NotFound, db')).
Proof.
  intros Hin Hid Hu. split.
  - intros Ha. now apply delete_not_found with oid.
  - intros before d after Hs.
    exists (mkDatabase (before ++ after) (teachers_collection db)).
    pose proof (unique_selects_absent _ _ _ _ _ Hu Hs) as Ha.
    split; [now apply delete_ok with oid d|].
    split; [reflexivity|]. split; [reflexivity|]. split.
    + intros reader Hr. eexists. split; [now apply get_all_announcements_ok|].
      simpl. split; [|split].
      * intros H. apply in_map_iff in H. destruct H as [x [Hx Hxin]].
        apply stringify_id_inj in Hx. subst x.
        apply (Ha d Hxin). now destruct Hs as [_ [E _]].
      * intros r H. apply in_map_iff in H. destruct H as [x [<- Hxin]].
        simpl. intros E. apply hexlify_inj in E. now apply (Ha x).
      * intros x Hx Hne. apply in_map. destruct Hs as [E _]. rewrite E in Hx.
        apply in_app_or in Hx. apply in_or_app.
        destruct Hx as [Hx|[Hx|Hx]]; [now left | now contradiction Hne | now right].
    + now apply delete_not_found with oid.
Qed.

Lemma sample_db_unique : unique_ids sample_db.
Proof.
  unfold unique_ids. simpl.
  repeat constructor; simpl; intros H;
    repeat (destruct H as [H|H]; [vm_compute in H; discriminate|]);
    exact H.
Qed.

Lemma delete_removes_one_or_not_found_witness :
  exists db',
    delete_announcement "000000000000000000000002" "mchen" sample_db =
    (Return deleted_ack, db') /\
    announcements_collection db' =
    [sample_doc 1 None "2026-06-30T00:00:00";
     sample_doc 3 (Some "2026-01-01T00:00:00") "2026-02-01T00:00:00"] /\
    delete_announcement "000000000000000000000002" "mchen" db' =
    (Raise NotFound, db').
Proof.
  destruct (delete_removes_one_or_not_found "000000000000000000000002" "mchen"
              sample_db (ObjectId_new 2)) as [_ H].
  - simpl. right. now left.
  - reflexivity.
  - exact sample_db_unique.
  - destruct (H [sample_doc 1 None "2026-06-30T00:00:00"]
                (sample_doc 2 (Some "2026-09-01T00:00:00") "2026-12-31T00:00:00")
                [sample_doc 3 (Some "2026-01-01T00:00:00") "2026-02-01T00:00:00"])
      as (db' & Hdel & Hdocs & _ & _ & Hagain).
    + repeat split. intros x [<-|[]]. vm_compute. discriminate.
    + exists db'. now repeat split.
Defined.

(** ** Failures leave the database alone *)

Lemma create_raise_unchanged (now : string) (entropy : N)
    (a : AnnouncementCreate) (db db' : Database) (e : exception) :
  create_announcement now entropy a db = (Raise e, db') -> db' = db.
Proof.
  destruct (teacher_dec (c_created_by a) db) as [Hin|Hin].
  - unfold create_announcement, bind. rewrite (verify_teacher_ok _ _ Hin).
    unfold insert_one.
    destruct (existsb (has_id (ObjectId_new entropy)) (announcements_collection db));
      simpl; intros H; [congruence | discriminate].
  - rewrite (create_announcement_fail _ _ _ _ Hin). congruence.
Qed.

Lemma update_raise_unchanged (id : string) (p : AnnouncementUpdate)
    (username : string) (db db' : Database) (e : exception) :
  update_announcement id p username db = (Raise e, db') -> db' = db.
Proof.
  intros H. pose proof (update_announcement_outcome id p username db) as O.
  rewrite H in O. inversion O; reflexivity.
Qed.

Lemma delete_raise_unchanged (id username : string) (db db' : Database)
    (e : exception) :
  delete_announcement id username db = (Raise e, db') -> db' = db.
Proof.
  intros H. pose proof (delete_announcement_outcome id username db) as O.
  rewrite H in O. inversion O; reflexivity.
Qed.

Lemma get_all_unchanged (username : string) (db db' : Database)
    (r : result (list Dict)) :
  get_all_announcements username db = (r, db') -> db' = db.
Proof.
  destruct (teacher_dec username db) as [Hin|Hin].
  - rewrite (get_all_announcements_ok _ _ Hin). congruence.
  - rewrite (get_all_announcements_fail _ _ Hin). congruence.
Qed.

(** C7.  Whenever [get_all_announcements], [create_announcement],
    [update_announcement] or [delete_announcement] fails with Unauthorized,
    BadRequest or NotFound, the database after the call is the database
    before it. *)
Theorem router_errors_are_atomic (e : exception) (db db' : Database) :
  router_error e ->
  (forall username,
     get_all_announcements username db = (Raise e, db') -> db' = db) /\
  (forall now entropy a,
     create_announcement now entropy a db = (Raise e, db') -> db' = db) /\
  (forall id p username,
     update_announcement id p username db = (Raise e, db') -> db' = db) /\
  (forall id username,
     delete_announcement id username db = (Raise e, db') -> db' = db).
Proof.
  intros _. repeat split; intros.
  - eapply get_all_unchanged; eassumption.
  - eapply create_raise_unchanged; eassumption.
  - eapply update_raise_unchanged; eassumption.
  - eapply delete_raise_unchanged; eassumption.
Qed.

Lemma router_errors_are_atomic_witness :
  snd (get_all_announcements "nobody" sample_db) = sample_db /\
  snd (create_announcement "2026-03-01T12:00:00" 7
         (mkCreate "Hello" None "2026-04-01" "nobody") sample_db) = sample_db /\
  snd (update_announcement "000000000000000000000001" (mkUpdate None None None)
         "mchen" sample_db) = sample_db /\
  snd (update_announcement "00000000000000000000002a" sample_patch
         "mchen" sample_db) = sample_db /\
  snd (delete_announcement "00000000000000000000002a" "mchen" sample_db) = sample_db.
Proof.
  split; [|split; [|split; [|split]]].
  - apply (proj1 (router_errors_are_atomic Unauthorized sample_db _
                    (or_introl eq_refl)) "nobody").
    reflexivity.
  - apply (proj1 (proj2 (router_errors_are_atomic Unauthorized sample_db _
                           (or_introl eq_refl)))
             "2026-03-01T12:00:00" 7 (mkCreate "Hello" None "2026-04-01" "nobody")).
    reflexivity.
  - apply (proj1 (proj2 (proj2 (router_errors_are_atomic BadRequest sample_db _
                                  (or_intror (or_introl eq_refl)))))
             "000000000000000000000001" (mkUpdate None None None) "mchen").
    reflexivity.
  - apply (proj1 (proj2 (proj2 (router_errors_are_atomic NotFound sample_db _
                                  (or_intror (or_intror eq_refl)))))
             "00000000000000000000002a" sample_patch "mchen").
    reflexivity.
  - apply (proj2 (proj2 (proj2 (router_errors_are_atomic NotFound sample_db _
                                  (or_intror (or_intror eq_refl)))))
             "00000000000000000000002a" "mchen").
    reflexivity.
Defined.

(** C8.  After [create_announcement] by an existing teacher (the generated
    identifier being new to the collection), [get_all_announcements] by any
    authorized username returns a list that contains the very record create
    returned, and the [_id] of that record is a string of 24 characters, so
    not the empty string. *)
Theorem create_then_list_all (now : string) (entropy : N)
    (a : AnnouncementCreate) (reader : string) (db : Database) :
  In (c_created_by a) (teachers_collection db) ->
  (forall d, In d (announcements_collection db) -> _id d <> ObjectId_new entropy) ->
  In reader (teachers_collection db) ->
  exists r db' l,
    create_announcement now entropy a db = (Return r, db') /\
    get_all_announcements reader db' = (Return l, db') /\
    In r l /\
    String.length (_id r) = 24%nat /\
    _id r <> EmptyString.
Proof.
  intros Hin Hfresh Hreader. do 3 eexists.
  split; [now apply create_announcement_ok|].
  split; [now apply get_all_announcements_ok|].
  split; [|split].
  - cbn [announcements_collection]. rewrite map_app.
    apply in_or_app. right. now left.
  - exact (str_ObjectId_new_length entropy).
  - intros E. pose proof (str_ObjectId_new_length entropy) as L.
    change (str (ObjectId_new entropy) = EmptyString) in E.
    rewrite E in L. discriminate.
Qed.

Lemma create_then_list_all_witness :
  exists r db' l,
    create_announcement "2026-03-01T12:00:00" 4 sample_create sample_db =
    (Return r, db') /\
    get_all_announcements "mrodriguez" db' = (Return l, db') /\
    In r l /\
    String.length (_id r) = 24%nat /\
    _id r <> EmptyString.
Proof.
  apply (create_then_list_all "2026-03-01T12:00:00" 4 sample_create
           "mrodriguez" sample_db).
  - simpl. right. now left.
  - intros d Hd. simpl in Hd.
    destruct Hd as [<-|[<-|[<-|[]]]]; vm_compute; discriminate.
  - simpl. now left.
Defined.




(** ** Updates never clear a field *)

Lemma find_patched (oid : ObjectId) (p : AnnouncementUpdate)
    (before after : list Document) (d0 d : Document) :
  find (has_id oid) (before ++ d0 :: after) = Some d ->
  exists d',
    find (has_id oid) (before ++ patched p d0 :: after) = Some d' /\
    (d' = d \/ (d = d0 /\ d' = patched p d0)).
Proof.
  induction before as [|x l IH]; simpl.
  - unfold has_id at 1 3. simpl.
    destruct (ObjectId_eqb (_id d0) oid).
    + intros H. inversion H; subst. exists (patched p d). split; [reflexivity|].
      right. now split.
    + intros H. exists d. split; [exact H | now left].
  - destruct (has_id oid x).
    + intros H. exists d. split; [exact H | now left].
    + exact IH.
Qed.

Lemma or_else_keeps (new old : option string) :
  old <> None -> or_else new old <> None.
Proof. destruct new; simpl; [discriminate | trivial]. Qed.

(** One request: whatever it answers, the document an identifier selects is
    still there, and none of its three fields went from a value to [None]. *)
Lemma update_keeps_values (id : string) (p : AnnouncementUpdate)
    (username : string) (db : Database) (oid : ObjectId) (d : Document) :
  find (has_id oid) (announcements_collection db) = Some d ->
  exists d',
    find (has_id oid)
      (announcements_collection (snd (update_announcement id p username db)))
    = Some d' /\
    (message d <> None -> message d' <> None) /\
    (start_date d <> None -> start_date d' <> None) /\
    (end_date d <> None -> end_date d' <> None).
Proof.
  intros Hf.
  destruct (update_announcement_outcome id p username db) as
    [ | | | |oid0 before after d0 Hin Hp Hid [E Hs]];
    try (exists d; simpl; now repeat split).
  simpl. rewrite E in Hf.
  destruct (find_patched oid p before after d0 d Hf) as [d' [Hf' Hd']].
  exists d'. split; [exact Hf'|].
  destruct Hd' as [->|[-> ->]].
  - now repeat split.
  - unfold patched. simpl. repeat split; apply or_else_keeps.
Qed.

(** C10.  Over any series of update requests (any ids, patches and
    usernames, failing or not), the announcement an identifier selects stays
    in the collection, and each of message, start_date and end_date that
    holds a value at the start still holds one at the end: an update may
    overwrite a field, never unset it. *)
Theorem updates_never_clear_a_field
    (requests : list (string * AnnouncementUpdate * string))
    (db : Database) (oid : ObjectId) (d : Document) :
  find (has_id oid) (announcements_collection db) = Some d ->
  exists d',
    find (has_id oid) (announcements_collection (run_updates requests db)) = Some d' /\
    (message d <> None -> message d' <> None) /\
    (start_date d <> None -> start_date d' <> None) /\
    (end_date d <> None -> end_date d' <> None).
Proof.
  revert db d. induction requests as [|[[id p] username] rest IH]; intros db d Hf.
  - exists d. simpl. now repeat split.
  - destruct (update_keeps_values id p username db oid d Hf)
      as (d1 & Hf1 & Hm1 & Hs1 & He1).
    destruct (IH _ _ Hf1) as (d' & Hf' & Hm & Hs & He).
    exists d'. simpl. split; [exact Hf'|]. repeat split; auto.
Qed.

Lemma updates_never_clear_a_field_witness :
  exists d',
    find (has_id (ObjectId_new 1))
      (announcements_collection (run_updates sample_requests sample_db)) = Some d' /\
    message d' <> None /\
    end_date d' <> None.
Proof.
  destruct (updates_never_clear_a_field sample_requests sample_db (ObjectId_new 1)
              (sample_doc 1 None "2026-06-30T00:00:00") eq_refl)
    as (d' & Hf & Hm & _ & He).
  exists d'. split; [exact Hf|]. split.
  - apply Hm. discriminate.
  - apply He. discriminate.
Defined.

(** * Further properties of the handlers *)

(** ** Order and time *)

Lemma sublist_filter {A : Type} (f : A -> bool) (l : list A) :
  sublist (filter f l) l.
Proof.
  induction l as [|x l IH]; simpl; [constructor|].
  destruct (f x); now constructor.
Qed.

Lemma sublist_map {A B : Type} (f : A -> B) (l1 l2 : list A) :
  sublist l1 l2 -> sublist (map f l1) (map f l2).
Proof. induction 1; simpl; now constructor. Qed.

Lemma sublist_trans {A : Type} (l1 l2 l3 : list A) :
  sublist l1 l2 -> sublist l2 l3 -> sublist l1 l3.
Proof.
  intros H12 H23. revert l1 H12.
  induction H23 as [|x l2 l3 H IH|x l2 l3 H IH]; intros l1 H12.
  - exact H12.
  - constructor. now apply IH.
  - inversion H12; subst; constructor; now apply IH.
Qed.

(** X1.  [get_active_announcements] asks for no username and never fails: on
    every database, even one without teachers, it answers a list and leaves
    the database as it is; the list is what [get_all_announcements] would
    show an authorized reader with some records left out, the others in the
    same order. *)
Theorem active_is_an_ordered_part_of_all (now : string) (db : Database) :
  exists active,
    get_active_announcements now db = (Return active, db) /\
    sublist active (map stringify_id (announcements_collection db)) /\
    (forall reader, In reader (teachers_collection db) ->
       exists all, get_all_announcements reader db = (Return all, db) /\
                   sublist active all).
Proof.
  eexists. split; [apply get_active_announcements_eq|].
  assert (S : sublist
                (map stringify_id
                   (filter (start_ok now)
                      (filter (fun d => q_gte (end_date d) now)
                         (announcements_collection db))))
                (map stringify_id (announcements_collection db))).
  { apply sublist_map. eapply sublist_trans; apply sublist_filter. }
  split; [exact S|].
  intros reader Hin. eexists. split; [now apply get_all_announcements_ok | exact S].
Qed.

Lemma ascii_compare_trans_le (a b c : ascii) :
  Ascii.compare a b <> Gt -> Ascii.compare b c <> Gt -> Ascii.compare a c <> Gt.
Proof.
  unfold Ascii.compare. rewrite !N.compare_le_iff. lia.
Qed.

Lemma ascii_compare_eq (a b : ascii) : Ascii.compare a b = Eq -> a = b.
Proof. apply Ascii.compare_eq_iff. Qed.

Lemma ascii_compare_lt_trans (a b c : ascii) :
  Ascii.compare a b = Lt -> Ascii.compare b c = Lt -> Ascii.compare a c = Lt.
Proof.
  unfold Ascii.compare. rewrite !N.compare_lt_iff. lia.
Qed.

Lemma string_leb_trans (a b c : string) :
  String.leb a b = true -> String.leb b c = true -> String.leb a c = true.
Proof.
  unfold String.leb. revert b c.
  induction a as [|x a IH]; intros [|y b] [|z c]; simpl; try congruence.
  destruct (Ascii.compare x y) eqn:Exy; try discriminate;
    destruct (Ascii.compare y z) eqn:Eyz; try discriminate.
  - apply ascii_compare_eq in Exy, Eyz. subst. rewrite ascii_compare_refl.
    apply IH.
  - apply ascii_compare_eq in Exy. subst. now rewrite Eyz.
  - apply ascii_compare_eq in Eyz. subst. now rewrite Exy.
  - now rewrite (ascii_compare_lt_trans _ _ _ Exy Eyz).
Qed.

Lemma active_at_iff (now : string) (db : Database) (d : Document) :
  In d (announcements_collection db) ->
  (active_at now db d <->
   q_gte (end_date d) now = true /\ start_ok now d = true).
Proof.
  intros Hin. unfold active_at. rewrite get_active_announcements_eq. split.
  - intros [r [Hr H]]. inversion Hr; subst r. clear Hr.
    apply in_map_iff in H. destruct H as [d' [Heq H]].
    apply stringify_id_inj in Heq. subst d'.
    apply filter_In in H. destruct H as [H Hs].
    apply filter_In in H. now destruct H.
  - intros [He Hs]. eexists. split; [reflexivity|].
    apply in_map. apply filter_In. split; [|exact Hs].
    apply filter_In. now split.
Qed.

(** X2.  The times at which an announcement is active form an interval of
    the string order: active at [t1] and at [t3], it is active at every [t2]
    with [t1 <= t2 <= t3]. *)
Theorem active_times_are_convex (db : Database) (d : Document)
    (t1 t2 t3 : string) :
  In d (announcements_collection db) ->
  String.leb t1 t2 = true ->
  String.leb t2 t3 = true ->
  active_at t1 db d ->
  active_at t3 db d ->
  active_at t2 db d.
Proof.
  intros Hin H12 H23 A1 A3.
  apply (active_at_iff _ _ _ Hin) in A1, A3. apply (active_at_iff _ _ _ Hin).
  destruct A1 as [_ S1]. destruct A3 as [E3 _]. split.
  - apply q_gte_iff in E3. destruct E3 as [e [He Hle]].
    apply q_gte_iff. exists e. split; [exact He|].
    now apply string_leb_trans with t3.
  - unfold start_ok in *. destruct (start_date d) as [[|c s]|]; simpl in *;
      try reflexivity.
    now apply string_leb_trans with t1.
Qed.

Lemma active_times_are_convex_witness :
  active_at "2026-01-15T00:00:00" sample_db
    (sample_doc 3 (Some "2026-01-01T00:00:00") "2026-02-01T00:00:00").
Proof.
  apply (active_times_are_convex sample_db _
           "2026-01-05T00:00:00" "2026-01-15T00:00:00" "2026-01-25T00:00:00").
  - simpl. tauto.
  - reflexivity.
  - reflexivity.
  - eexists. split; [reflexivity|]. vm_compute. tauto.
  - eexists. split; [reflexivity|]. vm_compute. tauto.
Defined.

(** ** Which answers are possible *)

Lemma present_or_absent (oid : ObjectId) (docs : list Document) :
  present oid docs <-> ~ absent oid docs.
Proof.
  split.
  - intros [d [Hd E]] Ha. now apply (Ha d).
  - intros Hn. destruct (first_match oid docs) as [Ha|[b [d [a [H1 [H2 _]]]]]].
    + contradiction.
    + exists d. split; [|exact H2]. rewrite H1. apply in_or_app. right. now left.
Qed.

Lemma selects_present (oid : ObjectId) (docs before after : list Document)
    (d : Document) :
  selects oid docs before d after -> present oid docs.
Proof.
  intros [H1 [H2 _]]. exists d. split; [|exact H2].
  rewrite H1. apply in_or_app. right. now left.
Qed.

(** X3.  The only exceptions [update_announcement] can end in are
    Unauthorized, BadRequest, NotFound and bson's [InvalidId] for the id it
    was given; [delete_announcement] can end only in Unauthorized, NotFound
    or that [InvalidId].  In particular the re-read after a matched update
    always finds the document: subscripting [None] never happens. *)
Theorem handler_exceptions_are_known (id : string) (username : string)
    (db db' : Database) (e : exception) :
  (forall p, update_announcement id p username db = (Raise e, db') ->
             e = Unauthorized \/ e = BadRequest \/ e = NotFound \/
             e = InvalidId id) /\
  (delete_announcement id username db = (Raise e, db') ->
   e = Unauthorized \/ e = NotFound \/ e = InvalidId id).
Proof.
  split.
  - intros p H. pose proof (update_announcement_outcome id p username db) as O.
    rewrite H in O. inversion O; subst; tauto.
  - intros H. pose proof (delete_announcement_outcome id username db) as O.
    rewrite H in O. inversion O; subst; tauto.
Qed.

Lemma handler_exceptions_are_known_witness :
  InvalidId "not-an-object-id" = Unauthorized \/
  InvalidId "not-an-object-id" = BadRequest \/
  InvalidId "not-an-object-id" = NotFound \/
  InvalidId "not-an-object-id" = InvalidId "not-an-object-id".
Proof.
  apply (proj1 (handler_exceptions_are_known "not-an-object-id" "mchen"
                  sample_db sample_db (InvalidId "not-an-object-id"))
           sample_patch).
  reflexivity.
Defined.

(** X4.  [update_announcement] succeeds exactly when the username is a
    teacher, the patch provides at least one field, the id parses as an
    [ObjectId] and some announcement carries that identifier. *)
Theorem update_succeeds_iff (id : string) (p : AnnouncementUpdate)
    (username : string) (db : Database) :
  (exists r db', update_announcement id p username db = (Return r, db')) <->
  In username (teachers_collection db) /\
  ~ empty_patch p /\
  exists oid, ObjectId_of_str id = Some oid /\
              present oid (announcements_collection db).
Proof.
  split.
  - intros [r [db' H]].
    pose proof (update_announcement_outcome id p username db) as O.
    rewrite H in O. inversion O; subst.
    repeat split; try assumption. eexists. split; [eassumption|].
    eapply selects_present; eassumption.
  - intros [Hin [Hp [oid [Hid Hpr]]]].
    apply present_or_absent in Hpr.
    destruct (first_match oid (announcements_collection db))
      as [Ha|[before [d [after Hs]]]]; [contradiction|].
    do 2 eexists. eapply update_ok; eassumption.
Qed.

(** X5.  [delete_announcement] succeeds exactly when the username is a
    teacher, the id parses as an [ObjectId] and some announcement carries
    that identifier; it then answers the acknowledgment and the collection
    has exactly one document less.  In every other case the collection keeps
    its length. *)
Theorem delete_succeeds_iff (id : string) (username : string) (db : Database) :
  ((exists r db', delete_announcement id username db = (Return r, db')) <->
   In username (teachers_collection db) /\
   exists oid, ObjectId_of_str id = Some oid /\
               present oid (announcements_collection db)) /\
  (forall r db',
     delete_announcement id username db = (Return r, db') ->
     r = deleted_ack /\
     S (List.length (announcements_collection db')) =
     List.length (announcements_collection db)) /\
  (forall e db',
     delete_announcement id username db = (Raise e, db') ->
     List.length (announcements_collection db') =
     List.length (announcements_collection db)).
Proof.
  split; [|split].
  - split.
    + intros [r [db' H]].
      pose proof (delete_announcement_outcome id username db) as O.
      rewrite H in O. inversion O; subst.
      split; [assumption|]. eexists. split; [eassumption|].
      eapply selects_present; eassumption.
    + intros [Hin [oid [Hid Hpr]]].
      apply present_or_absent in Hpr.
      destruct (first_match oid (announcements_collection db))
        as [Ha|[before [d [after Hs]]]]; [contradiction|].
      do 2 eexists. eapply delete_ok; eassumption.
  - intros r db' H.
    pose proof (delete_announcement_outcome id username db) as O.
    rewrite H in O. inversion O; subst. split; [reflexivity|].
    match goal with Hs : selects _ _ _ _ _ |- _ => destruct Hs as [E _] end.
    rewrite E. simpl. rewrite !length_app. simpl. lia.
  - intros e db' H. now rewrite (delete_raise_unchanged _ _ _ _ _ H).
Qed.

(** X6.  The username is checked first: for a username that is the [_id] of
    no teacher, update and delete fail with Unauthorized whatever the id and
    the patch (an id that does not parse, an empty patch, an id nobody
    carries), and so do list-all and create; nothing is written. *)
Theorem unauthorized_comes_first (username : string) (db : Database) :
  ~ In username (teachers_collection db) ->
  (forall id p, update_announcement id p username db = (Raise Unauthorized, db)) /\
  (forall id, delete_announcement id username db = (Raise Unauthorized, db)) /\
  get_all_announcements username db = (Raise Unauthorized, db) /\
  (forall now entropy message start stop,
     create_announcement now entropy (mkCreate message start stop username) db =
     (Raise Unauthorized, db)).
Proof.
  intros Hin. repeat split; intros.
  - now apply update_unauthorized.
  - now apply delete_unauthorized.
  - now apply get_all_announcements_fail.
  - now apply create_announcement_fail.
Qed.

Lemma unauthorized_comes_first_witness :
  update_announcement "not-an-object-id" (mkUpdate None None None) "nobody"
    sample_db = (Raise Unauthorized, sample_db) /\
  delete_announcement "not-an-object-id" "nobody" sample_db =
  (Raise Unauthorized, sample_db).
Proof.
  destruct (unauthorized_comes_first "nobody" sample_db) as (Hu & Hd & _ & _).
  - simpl. intros [H|[H|[]]]; discriminate.
  - split; [apply Hu | apply Hd].
Defined.

(** ** Create, then use the identifier it returned *)

Lemma selects_last (oid : ObjectId) (docs : list Document) (d : Document) :
  absent oid docs -> _id d = oid -> selects oid (docs ++ [d]) docs d [].
Proof. intros Ha E. now repeat split. Qed.

Lemma created_id_parses (entropy : N) :
  ObjectId_of_str (str (ObjectId_new entropy)) = Some (ObjectId_new entropy).
Proof. apply ObjectId_of_str_str, ObjectId_new_length. Qed.

(** X7.  The [_id] string [create_announcement] returns is one
    [update_announcement] accepts: an update of that id right after the
    create, by any teacher and with any non-empty patch, succeeds, and its
    answer is the created record with the patch's fields replaced. *)
Theorem created_id_can_be_updated (now : string) (entropy : N)
    (a : AnnouncementCreate) (p : AnnouncementUpdate) (username : string)
    (db : Database) :
  In (c_created_by a) (teachers_collection db) ->
  (forall d, In d (announcements_collection db) -> _id d <> ObjectId_new entropy) ->
  In username (teachers_collection db) ->
  ~ empty_patch p ->
  exists r db1 r2 db2,
    create_announcement now entropy a db = (Return r, db1) /\
    update_announcement (_id r) p username db1 = (Return r2, db2) /\
    _id r2 = _id r /\
    created_by r2 = c_created_by a /\
    created_at r2 = now /\
    message r2 = or_else (u_message p) (Some (c_message a)) /\
    start_date r2 = or_else (u_start_date p) (c_start_date a) /\
    end_date r2 = or_else (u_end_date p) (Some (c_end_date a)).
Proof.
  intros Hin Hfresh Hu Hp. do 4 eexists.
  split; [now apply create_announcement_ok|].
  split.
  - eapply update_ok with (oid := ObjectId_new entropy).
    + exact Hu.
    + exact Hp.
    + apply created_id_parses.
    + cbn [announcements_collection]. now apply selects_last.
  - repeat split.
Qed.

Lemma created_id_can_be_updated_witness :
  exists r db1 r2 db2,
    create_announcement "2026-03-01T12:00:00" 4 sample_create sample_db =
    (Return r, db1) /\
    update_announcement (_id r) sample_patch "mrodriguez" db1 = (Return r2, db2) /\
    message r2 = Some "Science fair moved to the gym" /\
    end_date r2 = Some "2026-03-20T00:00:00".
Proof.
  destruct (created_id_can_be_updated "2026-03-01T12:00:00" 4 sample_create
              sample_patch "mrodriguez" sample_db)
    as (r & db1 & r2 & db2 & Hc & Hu & _ & _ & _ & Hm & _ & He).
  - simpl. right. now left.
  - intros d Hd. simpl in Hd.
    destruct Hd as [<-|[<-|[<-|[]]]]; vm_compute; discriminate.
  - simpl. now left.
  - intros [H _]. discriminate.
  - exists r, db1, r2, db2. now repeat split.
Defined.

(** X8.  Create followed by delete of the returned [_id] is a round trip:
    the delete succeeds and the database is again the one before the
    create. *)
Theorem create_then_delete_restores (now : string) (entropy : N)
    (a : AnnouncementCreate) (username : string) (db : Database) :
  In (c_created_by a) (teachers_collection db) ->
  (forall d, In d (announcements_collection db) -> _id d <> ObjectId_new entropy) ->
  In username (teachers_collection db) ->
  exists r db1,
    create_announcement now entropy a db = (Return r, db1) /\
    delete_announcement (_id r) username db1 = (Return deleted_ack, db).
Proof.
  intros Hin Hfresh Hu. do 2 eexists.
  split; [now apply create_announcement_ok|].
  erewrite delete_ok with (oid := ObjectId_new entropy).
  - cbn [teachers_collection]. now rewrite app_nil_r, db_eta.
  - exact Hu.
  - apply created_id_parses.
  - cbn [announcements_collection]. now apply selects_last.
Qed.

Lemma create_then_delete_restores_witness :
  exists r db1,
    create_announcement "2026-03-01T12:00:00" 4 sample_create sample_db =
    (Return r, db1) /\
    delete_announcement (_id r) "mchen" db1 = (Return deleted_ack, sample_db).
Proof.
  apply (create_then_delete_restores "2026-03-01T12:00:00" 4 sample_create
           "mchen" sample_db).
  - simpl. right. now left.
  - intros d Hd. simpl in Hd.
    destruct Hd as [<-|[<-|[<-|[]]]]; vm_compute; discriminate.
  - simpl. right. now left.
Defined.

(** ** How updates compose *)

Lemma patched_twice (p : AnnouncementUpdate) (d : Document) :
  patched p (patched p d) = patched p d.
Proof.
  unfold patched, or_else. simpl.
  destruct (u_message p), (u_start_date p), (u_end_date p); reflexivity.
Qed.

Lemma patched_merge (p1 p2 : AnnouncementUpdate) (d : Document) :
  patched p2 (patched p1 d) = patched (merge_patch p1 p2) d.
Proof.
  unfold patched, merge_patch, or_else. simpl.
  destruct (u_message p2), (u_start_date p2), (u_end_date p2); reflexivity.
Qed.

Lemma merge_patch_not_empty (p1 p2 : AnnouncementUpdate) :
  ~ empty_patch p2 -> ~ empty_patch (merge_patch p1 p2).
Proof.
  unfold empty_patch, merge_patch, or_else. simpl. intros Hn [H1 [H2 H3]].
  apply Hn. destruct (u_message p2), (u_start_date p2), (u_end_date p2);
    try discriminate. now repeat split.
Qed.

(** X9.  A successful update is idempotent: sending the same request again
    gives the same answer and leaves the database it produced as it is. *)
Theorem update_is_idempotent (id : string) (p : AnnouncementUpdate)
    (username : string) (db db' : Database) (r : Dict) :
  update_announcement id p username db = (Return r, db') ->
  update_announcement id p username db' = (Return r, db').
Proof.
  intros H. pose proof (update_announcement_outcome id p username db) as O.
  rewrite H in O. inversion O; subst.
  match goal with Hs : selects _ _ _ _ _ |- _ =>
    pose proof (selects_patched _ p _ _ _ _ Hs) as Hs' end.
  erewrite update_ok; [| | eassumption | eassumption | exact Hs'].
  - now rewrite patched_twice.
  - assumption.
Qed.

Lemma update_is_idempotent_witness :
  update_announcement "000000000000000000000002" sample_patch "mchen"
    (snd (update_announcement "000000000000000000000002" sample_patch "mchen"
            sample_db))
  = (Return (stringify_id
               (patched sample_patch
                  (sample_doc 2 (Some "2026-09-01T00:00:00")
                     "2026-12-31T00:00:00"))),
     snd (update_announcement "000000000000000000000002" sample_patch "mchen"
            sample_db)).
Proof.
  apply (update_is_idempotent "000000000000000000000002" sample_patch "mchen"
           sample_db).
  reflexivity.
Defined.

(** X10.  Two updates of one announcement compose into one: after a
    successful update with patch [p1], an update of the same id with a
    non-empty patch [p2] answers and leaves exactly what a single update of
    the original database with the merged patch does, in which each field
    takes [p2]'s value if [p2] provides it and [p1]'s otherwise. *)
Theorem updates_compose_by_merging (id : string) (p1 p2 : AnnouncementUpdate)
    (username : string) (db db1 : Database) (r1 : Dict) :
  update_announcement id p1 username db = (Return r1, db1) ->
  ~ empty_patch p2 ->
  update_announcement id p2 username db1 =
  update_announcement id (merge_patch p1 p2) username db.
Proof.
  intros H Hp2. pose proof (update_announcement_outcome id p1 username db) as O.
  rewrite H in O. inversion O; subst.
  match goal with Hs : selects _ _ _ _ _ |- _ =>
    pose proof (selects_patched _ p1 _ _ _ _ Hs) as Hs';
    rewrite (update_ok id (merge_patch p1 p2) username db _ _ _ _
               ltac:(assumption) (merge_patch_not_empty p1 p2 Hp2)
               ltac:(eassumption) Hs)
  end.
  erewrite update_ok; [| | exact Hp2 | eassumption | exact Hs'].
  - now rewrite patched_merge.
  - assumption.
Qed.

Lemma updates_compose_by_merging_witness :
  update_announcement "000000000000000000000001"
    (mkUpdate None (Some "2026-02-01T00:00:00") None) "mchen"
    (snd (update_announcement "000000000000000000000001" sample_patch "mchen"
            sample_db))
  = update_announcement "000000000000000000000001"
      (merge_patch sample_patch
         (mkUpdate None (Some "2026-02-01T00:00:00") None)) "mchen" sample_db.
Proof.
  apply (updates_compose_by_merging "000000000000000000000001" sample_patch
           (mkUpdate None (Some "2026-02-01T00:00:00") None) "mchen" sample_db
           (snd (update_announcement "000000000000000000000001" sample_patch
                   "mchen" sample_db))
           (stringify_id (patched sample_patch
                            (sample_doc 1 None "2026-06-30T00:00:00")))).
  - reflexivity.
  - intros [_ [H _]]. discriminate.
Defined.

(** ** What the handlers never change *)

(** X11.  No update request, whatever it answers, adds, removes or reorders
    announcements or touches what identifies them: the sequences of [_id],
    of created_by and of created_at over the collection are the same after
    the call as before. *)
Theorem update_keeps_identities (id : string) (p : AnnouncementUpdate)
    (username : string) (db : Database) :
  map _id (announcements_collection (snd (update_announcement id p username db)))
  = map _id (announcements_collection db) /\
  map created_by (announcements_collection (snd (update_announcement id p username db)))
  = map created_by (announcements_collection db) /\
  map created_at (announcements_collection (snd (update_announcement id p username db)))
  = map created_at (announcements_collection db) /\
  List.length (announcements_collection (snd (update_announcement id p username db)))
  = List.length (announcements_collection db).
Proof.
  destruct (update_announcement_outcome id p username db);
    try (now repeat split).
  match goal with Hs : selects _ _ _ _ _ |- _ => destruct Hs as [E _] end.
  cbn [snd announcements_collection]. rewrite E, !map_app, !length_app.
  now repeat split.
Qed.

Lemma create_teachers (now : string) (entropy : N) (a : AnnouncementCreate)
    (db : Database) :
  teachers_collection (snd (create_announcement now entropy a db)) =
  teachers_collection db.
Proof.
  destruct (teacher_dec (c_created_by a) db) as [Hin|Hin].
  - unfold create_announcement, bind. rewrite (verify_teacher_ok _ _ Hin).
    unfold insert_one.
    now destruct (existsb (has_id (ObjectId_new entropy))
                    (announcements_collection db)).
  - now rewrite (create_announcement_fail _ _ _ _ Hin).
Qed.

(** X12.  No handler ever writes to the teachers collection: after any of
    the five requests, whatever it answers, the teachers are the same, so a
    username that was authorized stays authorized and one that was not stays
    unauthorized. *)
Theorem teachers_are_read_only (db : Database) :
  (forall now,
     teachers_collection (snd (get_active_announcements now db)) =
     teachers_collection db) /\
  (forall username,
     teachers_collection (snd (get_all_announcements username db)) =
     teachers_collection db) /\
  (forall now entropy a,
     teachers_collection (snd (create_announcement now entropy a db)) =
     teachers_collection db) /\
  (forall id p username,
     teachers_collection (snd (update_announcement id p username db)) =
     teachers_collection db) /\
  (forall id username,
     teachers_collection (snd (delete_announcement id username db)) =
     teachers_collection db).
Proof.
  split; [|split; [|split; [|split]]].
  - intros now. now rewrite get_active_announcements_eq.
  - intros username.
    now rewrite (get_all_unchanged username db _ _ (surjective_pairing _)).
  - intros. apply create_teachers.
  - intros id p username.
    now destruct (update_announcement_outcome id p username db).
  - intros id username.
    now destruct (delete_announcement_outcome id username db).
Qed.

(** X13.  Uniqueness of identifiers is an invariant of the router: if no two
    announcements share an [_id], the same holds after any create, update or
    delete request, whatever it answers (and the two read requests leave the
    database as it is). *)
Theorem handlers_keep_ids_unique (db : Database) :
  unique_ids db ->
  (forall now entropy a,
     unique_ids (snd (create_announcement now entropy a db))) /\
  (forall id p username,
     unique_ids (snd (update_announcement id p username db))) /\
  (forall id username,
     unique_ids (snd (delete_announcement id username db))) /\
  (forall now, snd (get_active_announcements now db) = db) /\
  (forall username, snd (get_all_announcements username db) = db).
Proof.
  intros Hu. split; [|split; [|split; [|split]]].
  - intros. now apply unique_ids_create.
  - intros. now apply unique_ids_update.
  - intros. now apply unique_ids_delete.
  - intros now. now rewrite get_active_announcements_eq.
  - intros username.
    now rewrite (get_all_unchanged username db _ _ (surjective_pairing _)).
Qed.

Lemma handlers_keep_ids_unique_witness :
  unique_ids
    (snd (create_announcement "2026-03-01T12:00:00" 4 sample_create sample_db)) /\
  unique_ids
    (snd (create_announcement "2026-03-01T12:00:00" 2 sample_create sample_db)) /\
  unique_ids
    (snd (delete_announcement "000000000000000000000002" "mchen" sample_db)).
Proof.
  destruct (handlers_keep_ids_unique sample_db sample_db_unique)
    as (Hc & _ & Hd & _).
  split; [apply Hc | split; [apply Hc | apply Hd]].
Defined.

(** X14.  When identifiers are unique in the collection, the records
    [get_all_announcements] returns carry pairwise distinct [_id] strings,
    one record per stored announcement. *)
Theorem list_all_ids_are_distinct (username : string) (db : Database) :
  unique_ids db ->
  In username (teachers_collection db) ->
  exists l,
    get_all_announcements username db = (Return l, db) /\
    NoDup (map _id l) /\
    List.length l = List.length (announcements_collection db).
Proof.
  intros Hu Hin. eexists. split; [now apply get_all_announcements_ok|].
  split.
  - rewrite map_map. cbn [stringify_id with_id _id].
    rewrite <- (map_map _id str).
    apply NoDup_map_NoDup_ForallPairs; [|exact Hu].
    intros x y _ _. apply hexlify_inj.
  - apply length_map.
Qed.

Lemma list_all_ids_are_distinct_witness :
  exists l,
    get_all_announcements "mchen" sample_db = (Return l, sample_db) /\
    NoDup (map _id l) /\
    List.length l = 3%nat.
Proof.
  apply (list_all_ids_are_distinct "mchen" sample_db sample_db_unique).
  simpl. right. now left.
Defined.

(** ** Writes, then reads *)

Lemma in_active_iff (now : string) (db : Database) (d : Document) :
  In d (announcements_collection db) ->
  (In (stringify_id d)
      (map stringify_id
         (filter (start_ok now)
            (filter (fun x => q_gte (end_date x) now)
               (announcements_collection db)))) <->
   q_gte (end_date d) now = true /\ start_ok now d = true).
Proof.
  intros Hin. split.
  - intros H. apply in_map_iff in H. destruct H as [d' [Heq H]].
    apply stringify_id_inj in Heq. subst d'.
    apply filter_In in H. destruct H as [H Hs].
    apply filter_In in H. now destruct H.
  - intros [He Hs]. apply in_map. apply filter_In. split; [|exact Hs].
    apply filter_In. now split.
Qed.

(** X15.  The update handler takes an empty string as a provided value
    (it tests [is not None]) while the active filter takes an empty
    start_date as no start date (it tests truth): after a successful update
    whose patch sets start_date to the empty string, the returned record is
    active at a time exactly when its end_date is a string at or above that
    time, with no lower bound left. *)
Theorem empty_start_date_lifts_the_lower_bound (id : string)
    (p : AnnouncementUpdate) (username : string) (db db' : Database)
    (r : Dict) (now : string) :
  update_announcement id p username db = (Return r, db') ->
  u_start_date p = Some EmptyString ->
  start_date r = Some EmptyString /\
  exists active,
    get_active_announcements now db' = (Return active, db') /\
    (In r active <-> exists e, end_date r = Some e /\ String.leb now e = true).
Proof.
  intros H Hs. pose proof (update_announcement_outcome id p username db) as O.
  rewrite H in O. inversion O; subst.
  assert (Hsd : start_date (patched p d) = Some EmptyString)
    by (unfold patched; simpl; now rewrite Hs).
  split; [exact Hsd|].
  eexists. split; [apply get_active_announcements_eq|].
  rewrite in_active_iff.
  - rewrite <- q_gte_iff. cbn [stringify_id with_id end_date].
    unfold start_ok. rewrite Hsd. simpl. tauto.
  - cbn [announcements_collection]. apply in_or_app. right. now left.
Qed.

Lemma empty_start_date_lifts_the_lower_bound_witness :
  exists active,
    get_active_announcements "2026-03-01T12:00:00"
      (snd (update_announcement "000000000000000000000002"
              (mkUpdate None (Some EmptyString) None) "mchen" sample_db))
    = (Return active,
       snd (update_announcement "000000000000000000000002"
              (mkUpdate None (Some EmptyString) None) "mchen" sample_db)) /\
    In (stringify_id
          (patched (mkUpdate None (Some EmptyString) None)
             (sample_doc 2 (Some "2026-09-01T00:00:00") "2026-12-31T00:00:00")))
       active.
Proof.
  destruct (empty_start_date_lifts_the_lower_bound "000000000000000000000002"
              (mkUpdate None (Some EmptyString) None) "mchen" sample_db
              (snd (update_announcement "000000000000000000000002"
                      (mkUpdate None (Some EmptyString) None) "mchen" sample_db))
              (stringify_id
                 (patched (mkUpdate None (Some EmptyString) None)
                    (sample_doc 2 (Some "2026-09-01T00:00:00")
                       "2026-12-31T00:00:00")))
              "2026-03-01T12:00:00" eq_refl eq_refl)
    as [_ [active [Ha Hiff]]].
  exists active. split; [exact Ha|]. apply Hiff.
  eexists. split; reflexivity.
Defined.

(** X16.  A created announcement is active exactly inside the window of its
    own request: after a successful create, [get_active_announcements] at a
    time [t] returns the created record if and only if [t] is at or below
    the request's end_date and the request has no start_date or one at or
    below [t]. *)
Theorem created_announcement_is_active_in_its_window (now : string)
    (entropy : N) (a : AnnouncementCreate) (db : Database) (t : string) :
  In (c_created_by a) (teachers_collection db) ->
  (forall d, In d (announcements_collection db) -> _id d <> ObjectId_new entropy) ->
  exists r db1 active,
    create_announcement now entropy a db = (Return r, db1) /\
    get_active_announcements t db1 = (Return active, db1) /\
    (In r active <->
     String.leb t (c_end_date a) = true /\
     (c_start_date a = None \/
      exists s, c_start_date a = Some s /\ String.leb s t = true)).
Proof.
  intros Hin Hfresh. do 3 eexists.
  split; [now apply create_announcement_ok|].
  split; [apply get_active_announcements_eq|].
  rewrite in_active_iff.
  - rewrite <- start_date_test. unfold start_ok. simpl. tauto.
  - cbn [announcements_collection]. apply in_or_app. right. now left.
Qed.

Lemma created_announcement_is_active_in_its_window_witness :
  exists r db1 active,
    create_announcement "2026-03-01T12:00:00" 4 sample_create sample_db =
    (Return r, db1) /\
    get_active_announcements "2026-03-15T09:00:00" db1 = (Return active, db1) /\
    In r active.
Proof.
  destruct (created_announcement_is_active_in_its_window "2026-03-01T12:00:00"
              4 sample_create sample_db "2026-03-15T09:00:00")
    as (r & db1 & active & Hc & Ha & Hiff).
  - simpl. right. now left.
  - intros d Hd. simpl in Hd.
    destruct Hd as [<-|[<-|[<-|[]]]]; vm_compute; discriminate.
  - exists r, db1, active. split; [exact Hc|]. split; [exact Ha|].
    apply Hiff. split; [reflexivity|]. right. eexists. split; reflexivity.
Defined.

(** X17.  What a successful update answers is what a reader sees next: the
    returned record is in the list [get_all_announcements] returns on the
    resulting database, and that list is as long as the collection was
    before the update. *)
Theorem update_answer_is_read_back (id : string) (p : AnnouncementUpdate)
    (username reader : string) (db db' : Database) (r : Dict) :
  update_announcement id p username db = (Return r, db') ->
  In reader (teachers_collection db) ->
  exists l,
    get_all_announcements reader db' = (Return l, db') /\
    In r l /\
    List.length l = List.length (announcements_collection db).
Proof.
  intros H Hr. pose proof (update_announcement_outcome id p username db) as O.
  rewrite H in O. inversion O; subst.
  eexists. split; [now apply get_all_announcements_ok|].
  cbn [announcements_collection]. split.
  - apply in_map. apply in_or_app. right. now left.
  - match goal with Hs : selects _ _ _ _ _ |- _ => destruct Hs as [E _] end.
    rewrite E, length_map, !length_app. reflexivity.
Qed.

Lemma update_answer_is_read_back_witness :
  exists l,
    get_all_announcements "mrodriguez"
      (snd (update_announcement "000000000000000000000003" sample_patch "mchen"
              sample_db))
    = (Return l,
       snd (update_announcement "000000000000000000000003" sample_patch "mchen"
              sample_db)) /\
    In (stringify_id
          (patched sample_patch
             (sample_doc 3 (Some "2026-01-01T00:00:00") "2026-02-01T00:00:00")))
       l /\
    List.length l = List.length (announcements_collection sample_db).
Proof.
  apply (update_answer_is_read_back "000000000000000000000003" sample_patch
           "mchen" "mrodriguez" sample_db).
  - reflexivity.
  - simpl. now left.
Defined.

(** X18.  Create appends: what [get_all_announcements] returns after a
    successful create is what it returned before, followed by the created
    record; the earlier records and their order are untouched. *)
Theorem create_appends_to_list_all (now : string) (entropy : N)
    (a : AnnouncementCreate) (reader : string) (db : Database) :
  In (c_created_by a) (teachers_collection db) ->
  (forall d, In d (announcements_collection db) -> _id d <> ObjectId_new entropy) ->
  In reader (teachers_collection db) ->
  exists r db1 l,
    create_announcement now entropy a db = (Return r, db1) /\
    get_all_announcements reader db = (Return l, db) /\
    get_all_announcements reader db1 = (Return (l ++ [r]), db1).
Proof.
  intros Hin Hfresh Hr. do 3 eexists.
  split; [now apply create_announcement_ok|].
  split; [now apply get_all_announcements_ok|].
  rewrite get_all_announcements_ok by exact Hr.
  cbn [announcements_collection]. now rewrite map_app.
Qed.

Lemma create_appends_to_list_all_witness :
  exists r db1 l,
    create_announcement "2026-03-01T12:00:00" 4 sample_create sample_db =
    (Return r, db1) /\
    get_all_announcements "mchen" sample_db = (Return l, sample_db) /\
    get_all_announcements "mchen" db1 = (Return (l ++ [r]), db1).
Proof.
  apply (create_appends_to_list_all "2026-03-01T12:00:00" 4 sample_create
           "mchen" sample_db).
  - simpl. right. now left.
  - intros d Hd. simpl in Hd.
    destruct Hd as [<-|[<-|[<-|[]]]]; vm_compute; discriminate.
  - simpl. right. now left.
Defined.

(** ** Identity under updates *)

Lemma update_keeps_identity (id : string) (p : AnnouncementUpdate)
    (username : string) (db : Database) (oid : ObjectId) (d : Document) :
  find (has_id oid) (announcements_collection db) = Some d ->
  exists d',
    find (has_id oid)
      (announcements_collection (snd (update_announcement id p username db)))
    = Some d' /\
    _id d' = _id d /\ created_by d' = created_by d /\ created_at d' = created_at d.
Proof.
  intros Hf.
  destruct (update_announcement_outcome id p username db) as
    [ | | | |oid0 before after d0 Hin Hp Hid [E Hs]];
    try (exists d; simpl; now repeat split).
  simpl. rewrite E in Hf.
  destruct (find_patched oid p before after d0 d Hf) as [d' [Hf' Hd']].
  exists d'. split; [exact Hf'|].
  destruct Hd' as [->|[-> ->]]; now repeat split.
Qed.

(** X19.  Over any series of update requests (any ids, patches and
    usernames, failing or not), the announcement an identifier selects keeps
    its [_id], its created_by and its created_at: no update, and no
    succession of them, rewrites who created an announcement or when. *)
Theorem identity_survives_updates
    (requests : list (string * AnnouncementUpdate * string))
    (db : Database) (oid : ObjectId) (d : Document) :
  find (has_id oid) (announcements_collection db) = Some d ->
  exists d',
    find (has_id oid) (announcements_collection (run_updates requests db)) = Some d' /\
    _id d' = _id d /\ created_by d' = created_by d /\ created_at d' = created_at d.
Proof.
  revert db d. induction requests as [|[[id p] username] rest IH]; intros db d Hf.
  - exists d. simpl. now repeat split.
  - destruct (update_keeps_identity id p username db oid d Hf)
      as (d1 & Hf1 & Hi1 & Hb1 & Ha1).
    destruct (IH _ _ Hf1) as (d' & Hf' & Hi & Hb & Ha).
    exists d'. simpl. split; [exact Hf'|]. repeat split; congruence.
Qed.

Lemma identity_survives_updates_witness :
  exists d',
    find (has_id (ObjectId_new 1))
      (announcements_collection (run_updates sample_requests sample_db)) = Some d' /\
    created_by d' = "mrodriguez" /\
    created_at d' = "2026-01-05T08:00:00".
Proof.
  destruct (identity_survives_updates sample_requests sample_db (ObjectId_new 1)
              (sample_doc 1 None "2026-06-30T00:00:00") eq_refl)
    as (d' & Hf & _ & Hb & Ha).
  exists d'. split; [exact Hf|]. split; [exact Hb | exact Ha].
Defined.

(** ** Required fields *)

Lemma patched_required (p : AnnouncementUpdate) (d : Document) :
  message d <> None /\ end_date d <> None ->
  message (patched p d) <> None /\ end_date (patched p d) <> None.
Proof.
  intros [Hm He]. unfold patched. simpl. split; now apply or_else_keeps.
Qed.

(** X20.  Presence of message and end_date is an invariant of the router: if
    every stored announcement has both, so has every stored announcement
    after any create, update or delete request, whatever it answers.  Create
    always stores both, and an update cannot take either away. *)
Theorem handlers_keep_required_fields (db : Database) :
  required_fields db ->
  (forall now entropy a,
     required_fields (snd (create_announcement now entropy a db))) /\
  (forall id p username,
     required_fields (snd (update_announcement id p username db))) /\
  (forall id username,
     required_fields (snd (delete_announcement id username db))).
Proof.
  intros Hr. split; [|split].
  - intros now entropy a.
    destruct (teacher_dec (c_created_by a) db) as [Hin|Hin].
    2: { now rewrite (create_announcement_fail _ _ _ _ Hin). }
    unfold create_announcement, bind. rewrite (verify_teacher_ok _ _ Hin).
    unfold insert_one.
    destruct (existsb (has_id (ObjectId_new entropy)) (announcements_collection db));
      [exact Hr|].
    unfold required_fields. simpl. apply Forall_app. split; [exact Hr|].
    constructor; [|constructor]. simpl. split; discriminate.
  - intros id p username.
    destruct (update_announcement_outcome id p username db); try exact Hr.
    match goal with Hs : selects _ _ _ _ _ |- _ => destruct Hs as [E _] end.
    unfold required_fields in *. cbn [snd announcements_collection].
    rewrite E in Hr. apply Forall_app in Hr. destruct Hr as [Hb Hda].
    inversion Hda; subst. apply Forall_app. split; [exact Hb|].
    constructor; [now apply patched_required | assumption].
  - intros id username.
    destruct (delete_announcement_outcome id username db); try exact Hr.
    match goal with Hs : selects _ _ _ _ _ |- _ => destruct Hs as [E _] end.
    unfold required_fields in *. cbn [snd announcements_collection].
    rewrite E in Hr. apply Forall_app in Hr. destruct Hr as [Hb Hda].
    inversion Hda; subst. apply Forall_app. now split.
Qed.

Lemma sample_db_required : required_fields sample_db.
Proof. unfold required_fields. simpl. repeat constructor; discriminate. Qed.

Lemma handlers_keep_required_fields_witness :
  required_fields
    (snd (create_announcement "2026-03-01T12:00:00" 4 sample_create sample_db)) /\
  required_fields
    (snd (update_announcement "000000000000000000000001"
            (mkUpdate (Some EmptyString) None (Some EmptyString)) "mchen"
            sample_db)) /\
  required_fields
    (snd (delete_announcement "000000000000000000000003" "mchen" sample_db)).
Proof.
  destruct (handlers_keep_required_fields sample_db sample_db_required)
    as (Hc & Hu & Hd).
  split; [apply Hc | split; [apply Hu | apply Hd]].
Defined.

(** ** Updates that leave the dates alone *)

Lemma patched_keeps_dates (p : AnnouncementUpdate) (d : Document) :
  keeps_dates p ->
  start_date (patched p d) = start_date d /\ end_date (patched p d) = end_date d.
Proof. intros [Hs He]. unfold patched. simpl. now rewrite Hs, He. Qed.

Lemma filter_ids_replace (f : Document -> bool) (before after : list Document)
    (d d' : Document) :
  f d' = f d -> _id d' = _id d ->
  map _id (filter f (before ++ d' :: after)) =
  map _id (filter f (before ++ d :: after)).
Proof.
  intros Hf Hi. rewrite !filter_app, !map_app. f_equal. simpl.
  rewrite Hf. destruct (f d); simpl; now rewrite ?Hi.
Qed.

(** X21.  An update whose patch provides neither start_date nor end_date
    (only the message) does not change which announcements are active: at
    every time, [get_active_announcements] returns records with the same
    [_id]s, in the same order, on the database after the update as on the
    one before, whatever the update answered. *)
Theorem message_update_keeps_the_active_set (id : string)
    (p : AnnouncementUpdate) (username : string) (db : Database) (now : string) :
  keeps_dates p ->
  exists before after,
    fst (get_active_announcements now db) = Return before /\
    fst (get_active_announcements now
           (snd (update_announcement id p username db))) = Return after /\
    map _id after = map _id before.
Proof.
  intros Hk. do 2 eexists.
  split; [now rewrite get_active_announcements_eq|].
  split; [now rewrite get_active_announcements_eq|].
  destruct (update_announcement_outcome id p username db); try reflexivity.
  match goal with Hs : selects _ _ _ _ _ |- _ => destruct Hs as [E _] end.
  cbn [snd announcements_collection]. rewrite E.
  destruct (patched_keeps_dates p d Hk) as [Hsd Hed].
  rewrite !map_map. cbn [stringify_id with_id _id].
  rewrite <- !(map_map _id str). f_equal.
  assert (Hff : forall l : list Document,
            filter (start_ok now) (filter (fun x => q_gte (end_date x) now) l) =
            filter (fun x => q_gte (end_date x) now && start_ok now x) l).
  { intros l. induction l as [|x l IH]; simpl; [reflexivity|].
    destruct (q_gte (end_date x) now); simpl; [|exact IH].
    destruct (start_ok now x); now rewrite IH. }
  rewrite !Hff. apply filter_ids_replace; [|reflexivity].
  unfold start_ok. now rewrite Hsd, Hed.
Qed.

Lemma message_update_keeps_the_active_set_witness :
  exists before after,
    fst (get_active_announcements "2026-03-01T12:00:00" sample_db) = Return before /\
    fst (get_active_announcements "2026-03-01T12:00:00"
           (snd (update_announcement "000000000000000000000001" sample_patch
                   "mchen" sample_db))) = Return after /\
    map _id after = map _id before.
Proof.
  apply (message_update_keeps_the_active_set "000000000000000000000001"
           sample_patch "mchen" sample_db "2026-03-01T12:00:00").
  split; reflexivity.
Defined.
